(** * neon: the RTSP request decoder and the TCP connection context

    A shallow embedding of [pkg/tcp/context.go] (package [tcp]) and of the
    RTSP request layer (package [rtsp]: [UnmarshalRequest], [HeaderLines],
    [Request] and its method views), with the properties of the wire-level
    request layer stated over it.

    Conventions of the embedding:
    - a Go [string] is a [string] (a sequence of 8-bit characters), a Go
      [[]byte] is a [list byte]; [string(b)] and [[]byte(s)] are the two
      conversions of the Standard Library;
    - a Go [int] is a [Z]; the platform is taken to be 64-bit ([intSize]),
      and the one addition whose operand is attacker-controlled wraps;
    - a Go [map[string]string] is a [gmap string string];
    - a run-time panic (nil dereference, slice bounds out of range) is the
      outcome [Panicked]. *)

From Stdlib Require Import ZArith Lia.
From Stdlib.Strings Require Import Byte.
From stdpp Require Import gmap strings list fin_maps.

Local Open Scope Z_scope.

(** ** Outcomes of a call: a normal return or a run-time panic *)

Inductive outcome (A : Type) : Type :=
| Returned (a : A)
| Panicked.
Arguments Returned {A} a.
Arguments Panicked {A}.

(** ** Byte strings *)

Abbreviation bytes := (list byte).

#[global] Instance byte_eq_decision : EqDecision byte := byte_eq_dec.

(** [[]byte(s)] and [string(b)]. *)
Definition bytes_of (s : string) : bytes := String.list_byte_of_string s.
Definition string_of (b : bytes) : string := String.string_of_list_byte b.

Definition CR : byte := x0d.
Definition LF : byte := x0a.
(** The byte strings ["\r\n"] and ["\r\n\r\n"], and the same as Go strings. *)
Definition CRLF : bytes := [CR; LF].
Definition CRLFCRLF : bytes := [CR; LF; CR; LF].
Definition crlf : string := string_of CRLF.

(** [sep] occurs in [s]. *)
Definition contains (s sep : bytes) : Prop :=
  exists pre post, s = pre ++ sep ++ post.

(** ** Package [bytes] / [strings]: [Index] and [Split] *)

Module GoBytes.

(** [bytes.HasPrefix]. *)
Fixpoint HasPrefix (s prefix : bytes) : bool :=
  match prefix, s with
  | [], _ => true
  | _ :: _, [] => false
  | p :: prefix', c :: s' => if decide (c = p) then HasPrefix s' prefix' else false
  end.

(** The position of the first occurrence of [sep] in [s], if any. *)
Fixpoint index_opt (s sep : bytes) : option nat :=
  if HasPrefix s sep then Some O
  else match s with
       | [] => None
       | _ :: s' => S <$> index_opt s' sep
       end.

(** [bytes.Index]: the first occurrence, or [-1]. *)
Definition Index (s sep : bytes) : Z :=
  match index_opt s sep with
  | Some i => Z.of_nat i
  | None => -1
  end.

(** The loop of [genSplit] (with [sepSave = 0] and no limit): cut at each
    first occurrence of [sep] and continue behind it. Every iteration
    removes at least [len(sep)] bytes, so [length s] iterations are enough
    for a non-empty [sep]; every call site passes a non-empty constant. *)
Fixpoint genSplit (fuel : nat) (s sep : bytes) : list bytes :=
  match fuel with
  | O => [s]
  | S fuel' =>
      match index_opt s sep with
      | None => [s]
      | Some m => take m s :: genSplit fuel' (drop (m + length sep) s) sep
      end
  end.

(** [bytes.Split], for a non-empty separator. *)
Definition Split (s sep : bytes) : list bytes := genSplit (length s) s sep.

(** [bytes.Join]: the pieces with [sep] between them. *)
Definition Join (pieces : list bytes) (sep : bytes) : bytes :=
  match pieces with
  | [] => []
  | piece :: rest => piece ++ concat ((fun p => sep ++ p) <$> rest)
  end.

End GoBytes.

Module GoStrings.

(** [strings.Split], for a non-empty separator: the same scan over the
    bytes of the string. *)
Definition Split (s sep : string) : list string :=
  string_of <$> GoBytes.Split (bytes_of s) (bytes_of sep).

(** The ASCII fast path of [strings.ToLower]. *)
Definition isASCII (b : bytes) : bool :=
  forallb (fun c => (Byte.to_N c <? 128)%N) b.

Definition lowerByte (c : byte) : byte :=
  if ((65 <=? Byte.to_N c)%N && (Byte.to_N c <=? 90)%N)%bool
  then default c (Byte.of_N (Byte.to_N c + 32)%N)
  else c.

Section ToLower.
(** [strings.Map(unicode.ToLower, s)], the path [strings.ToLower] takes
    for a string with a byte outside ASCII; it rests on the Unicode case
    tables, which the embedding leaves abstract. *)
Variable unicodeToLower : string -> string.

(** [strings.ToLower]. *)
Definition ToLower (s : string) : string :=
  if isASCII (bytes_of s) then string_of (lowerByte <$> bytes_of s)
  else unicodeToLower s.
End ToLower.

End GoStrings.

(** ** Package [strconv]: [Atoi] *)

Module GoStrconv.

(** The two sentinel errors of [strconv]. *)
Inductive convErr := ErrSyntax | ErrRange.

(** [*strconv.NumError]: the failing function, the input and the reason. *)
Record NumError := { Func : string; Num : string; Err : convErr }.

Definition intSize : Z := 64.
Definition maxUint64 : Z := 2 ^ 64 - 1.
Definition maxInt : Z := 2 ^ (intSize - 1) - 1.
Definition minInt : Z := - 2 ^ (intSize - 1).

(** The digit loop of [ParseUint] in base 10: a byte that is no decimal
    digit is a syntax error, a value above [maxUint64] a range error, and
    whichever comes first from the left decides. *)
Fixpoint parseDigits (n : Z) (s : bytes) : convErr + Z :=
  match s with
  | [] => inr n
  | c :: s' =>
      let d := Z.of_N (Byte.to_N c) - 48 in
      if decide (0 <= d <= 9) then
        if decide (maxUint64 < n * 10 + d) then inl ErrRange
        else parseDigits (n * 10 + d) s'
      else inl ErrSyntax
  end.

(** [ParseInt(s, 10, 0)]: an optional sign, at least one digit, and the
    signed range check. *)
Definition parseInt (s : bytes) : convErr + Z :=
  match s with
  | [] => inl ErrSyntax
  | c :: s' =>
      let neg := bool_decide (c = "-"%byte) in
      let digits := if bool_decide (c = "+"%byte \/ c = "-"%byte) then s' else s in
      match digits with
      | [] => inl ErrSyntax
      | _ =>
          match parseDigits 0 digits with
          | inl e => inl e
          | inr un =>
              if neg then
                if decide (- minInt < un) then inl ErrRange else inr (- un)
              else
                if decide (maxInt < un) then inl ErrRange else inr un
          end
      end
  end.

(** [strconv.Atoi]. Its fast path for short inputs returns what the general
    path returns, so the general path is the model. *)
Definition Atoi (s : string) : NumError + Z :=
  match parseInt (bytes_of s) with
  | inl e => inl {| Func := "Atoi"; Num := s; Err := e |}
  | inr n => inr n
  end.

End GoStrconv.

(** ** Go values shared by the two packages *)

(** An [error] value: one made by [errors.New], or a [*strconv.NumError]. *)
Inductive error :=
| errors_New (text : string)
| strconv_NumError (e : GoStrconv.NumError).

(** A [[]byte] as the callee sees it: the [len(buf)] bytes in range, and the
    bytes of the backing array between [len(buf)] and [cap(buf)], which a
    slice expression may reach. *)
Record ByteSlice := { data : bytes; spare : bytes }.

Definition len (buf : ByteSlice) : Z := Z.of_nat (length (data buf)).
Definition cap (buf : ByteSlice) : Z :=
  Z.of_nat (length (data buf) + length (spare buf)).

(** A buffer whose capacity is its length. *)
Definition exactly (b : bytes) : ByteSlice := {| data := b; spare := [] |}.

(** The slice expression [buf[lo:hi]]: it panics unless
    [0 <= lo <= hi <= cap(buf)]. *)
Definition slice (buf : ByteSlice) (lo hi : Z) : outcome bytes :=
  if decide (0 <= lo /\ lo <= hi /\ hi <= cap buf)
  then Returned (take (Z.to_nat (hi - lo)) (drop (Z.to_nat lo) (data buf ++ spare buf)))
  else Panicked.

(** Addition on [int]: two's complement on [intSize] bits. *)
Definition wrapInt (z : Z) : Z :=
  (z - GoStrconv.minInt) mod 2 ^ GoStrconv.intSize + GoStrconv.minInt.

(** * Package [rtsp] *)

Module Rtsp.

Abbreviation HeaderLines := (gmap string string).

Record Request := {
  Method : string;
  Url : string;
  Version : string;
  Lines : HeaderLines;
  Content : bytes
}.

(** Reading a Go map: the zero value for a missing key. *)
Definition at_key (lines : HeaderLines) (key : string) : string :=
  default ""%string (lines !! key).

Section Decoder.
Variable unicodeToLower : string -> string.

Definition ToLower : string -> string := GoStrings.ToLower unicodeToLower.

(** The loop [for _, line := range lines] of [UnmarshalRequest], with the
    header map and [contentLength] as its state; [inl] is the early return
    on a [content-length] value that [Atoi] refuses. *)
Fixpoint parseLines (lines : list bytes) (hdr : HeaderLines) (contentLength : Z)
  : GoStrconv.NumError + (HeaderLines * Z) :=
  match lines with
  | [] => inr (hdr, contentLength)
  | line :: rest =>
      if decide (length line = 0%nat) then parseLines rest hdr contentLength
      else
        let idx := GoBytes.Index line (bytes_of ":") in
        if decide (idx = -1) then parseLines rest hdr contentLength
        else
          let key := ToLower (string_of (take (Z.to_nat idx) line)) in
          let value := string_of (drop (Z.to_nat (idx + 1)) line) in
          let hdr' := <[key := value]> hdr in
          if decide (key = "content-length"%string) then
            match GoStrconv.Atoi value with
            | inl err => inl err
            | inr n => parseLines rest hdr' n
            end
          else parseLines rest hdr' contentLength
  end.

(** [UnmarshalRequest]: the triple of request pointer, byte count and error it returns, or
    a panic of the slice expression that takes the body. *)
Definition UnmarshalRequest (buf : ByteSlice)
  : outcome (option Request * Z * option error) :=
  let headerEndOffset := GoBytes.Index (data buf) CRLFCRLF in
  if decide (headerEndOffset = -1) then
    Returned (None, -1, Some (errors_New "incomplete packet"))
  else
    let endOffset := headerEndOffset + 4 in
    let lines := GoBytes.Split (take (Z.to_nat headerEndOffset) (data buf)) CRLF in
    if decide (length lines < 2)%nat then
      Returned (None, endOffset, Some (errors_New "invalid packet"))
    else
      let methodLine := default [] (lines !! 0%nat) in
      let methodLineParts := GoBytes.Split methodLine (bytes_of " ") in
      if decide (length methodLineParts <> 3%nat) then
        Returned (None, endOffset, Some (errors_New "invalid packet"))
      else
        let part (i : nat) := string_of (default [] (methodLineParts !! i)) in
        match parseLines lines ∅ 0 with
        | inl err => Returned (None, headerEndOffset + 4, Some (strconv_NumError err))
        | inr (hdr, contentLength) =>
            match slice buf (headerEndOffset + 4)
                        (wrapInt (headerEndOffset + 4 + contentLength)) with
            | Panicked => Panicked
            | Returned content =>
                Returned (Some {| Method := ToLower (part 0%nat);
                                  Url := ToLower (part 1%nat);
                                  Version := ToLower (part 2%nat);
                                  Lines := hdr;
                                  Content := content |},
                          wrapInt (endOffset + contentLength), None)
            end
        end.

(** What one line of the header block contributes, in the words of the
    decoder's contract: nothing without a colon, else the lower-cased text
    before the first colon and the untouched rest of the line. *)
Definition headerPair (line : bytes) : option (string * string) :=
  match GoBytes.index_opt line (bytes_of ":") with
  | None => None
  | Some idx =>
      Some (ToLower (string_of (take idx line)), string_of (drop (S idx) line))
  end.

(** The values of the [content-length] occurrences among [lines], in the
    order of the lines. *)
Definition contentLengthValues (lines : list bytes) : list string :=
  (filter (fun kv => kv.1 = "content-length"%string) (omap headerPair lines)).*2.
End Decoder.

(** Storing pairs in a header map in order, later pairs over earlier. *)
Definition store (hdr : HeaderLines) (pairs : list (string * string)) : HeaderLines :=
  foldl (fun m kv => <[kv.1 := kv.2]> m) hdr pairs.

(** A value that [strconv.Atoi] accepts. *)
Definition parses (v : string) : Prop := exists n, GoStrconv.Atoi v = inr n.

(** The reading of the decoder's contract under which only the last
    [content-length] occurrence matters: the decoder returns the [Atoi]
    error, with the bytes up to the end of the terminator consumed, exactly
    when the last occurrence has a value that does not parse. *)
Definition lastOccurrenceDecides (unicodeToLower : string -> string) (buf : ByteSlice) : Prop :=
  let a := GoBytes.Index (data buf) CRLFCRLF in
  let lines := GoBytes.Split (take (Z.to_nat a) (data buf)) CRLF in
  (exists e, UnmarshalRequest unicodeToLower buf
             = Returned (None, a + 4, Some (strconv_NumError e)))
  <-> (exists v, last (contentLengthValues unicodeToLower lines) = Some v /\ ~ parses v).

(** The decoder has found the terminator at [a], the header block before it
    splits into [lines], at least two, and the first of them has three
    space-separated parts: the decode is past its two invalid-packet
    returns. *)
Definition framed (buf : ByteSlice) (a : Z) (lines : list bytes) : Prop :=
  a = GoBytes.Index (data buf) CRLFCRLF /\ a <> -1
  /\ lines = GoBytes.Split (take (Z.to_nat a) (data buf)) CRLF
  /\ (2 <= length lines)%nat
  /\ length (GoBytes.Split (default [] (lines !! 0%nat)) (bytes_of " ")) = 3%nat.

(** The same buffer after more bytes have arrived behind it, with whatever
    capacity the new backing array has. *)
Definition extended (buf : ByteSlice) (more spare' : bytes) : ByteSlice :=
  {| data := data buf ++ more; spare := spare' |}.

(** The byte [c] occurs [n] times in [s]. *)
Definition occurrences (c : byte) (s : bytes) : nat :=
  length (filter (fun x => x = c) s).

(** [HeaderLines.String] for one order of visiting the entries. *)
Definition String_in (order : list (string * string)) : string :=
  foldl (fun s kv => s +:+ kv.1 +:+ ": " +:+ kv.2 +:+ crlf) ""%string order.

(** [HeaderLines.String]: Go ranges over the map in an order it does not
    fix, each entry once; [s] is a possible result. *)
Definition String (lines : HeaderLines) (s : string) : Prop :=
  exists order, order ≡ₚ map_to_list lines /\ s = String_in order.

(** The line [HeaderLines.String] writes for one entry. *)
Definition entryLine (k v : string) : string := k +:+ ": " +:+ v +:+ crlf.

(** The byte count of all the lines [HeaderLines.String] writes. *)
Definition entriesLength (entries : list (string * string)) : nat :=
  sum_list ((fun kv => String.length kv.1 + String.length kv.2 + 4)%nat <$> entries).

Definition GetLine (req : Request) (key : string) : string := at_key (Lines req) key.

Definition SetLine (req : Request) (key value : string) : Request :=
  {| Method := Method req; Url := Url req; Version := Version req;
     Lines := <[key := value]> (Lines req); Content := Content req |}.

(** [Request.ToString], for a given result of [Lines.String()]. *)
Definition ToString_with (req : Request) (headers : string) : string :=
  Method req +:+ " " +:+ Url req +:+ " " +:+ Version req +:+ crlf
    +:+ headers +:+ crlf +:+ string_of (Content req).

Definition ToString (req : Request) (s : string) : Prop :=
  exists headers, String (Lines req) headers /\ s = ToString_with req headers.

(** [Request.CSeq]. *)
Definition CSeq (req : Request) : Z :=
  let cseqLine := at_key (Lines req) "cseq" in
  if decide (cseqLine = ""%string) then -1
  else match GoStrconv.Atoi cseqLine with
       | inl _ => -1
       | inr cseq => cseq
       end.

Definition Session (req : Request) : string := at_key (Lines req) "session".

(** The method views embed a pointer to the request; a view is the request
    it refers to. *)
Definition SetupRequest_TransportString (req : Request) : string :=
  at_key (Lines req) "transport".

(** [GetParameterRequest.Parameters]: [nil] on an empty body. *)
Definition GetParameterRequest_Parameters (req : Request) : option (list string) :=
  if decide (length (Content req) = 0%nat) then None
  else Some (GoStrings.Split (string_of (Content req)) crlf).

(** The body of the loop of [SetParameterRequest.Parameters]. *)
Definition addParameter (params : gmap string string) (line : string)
  : gmap string string :=
  let parts := GoStrings.Split line ":" in
  if decide (length parts <> 2%nat) then params
  else <[default ""%string (parts !! 0%nat) := default ""%string (parts !! 1%nat)]> params.

(** [SetParameterRequest.Parameters]: a [nil] map on an empty body. *)
Definition SetParameterRequest_Parameters (req : Request) : option (gmap string string) :=
  if decide (length (Content req) = 0%nat) then None
  else
    let lines := GoStrings.Split (string_of (Content req)) crlf in
    Some (foldl addParameter ∅ lines).

(** A line that is [k], one colon, [v], with no other colon in it. *)
Definition oneColon (line k v : string) : Prop :=
  bytes_of line = bytes_of k ++ (":"%byte :: bytes_of v)
  /\ (":"%byte ∉ bytes_of k) /\ (":"%byte ∉ bytes_of v).

(** No line among [lines] is [k], one colon and a value. *)
Definition noOneColon (lines : list string) (k : string) : Prop :=
  forall line v, line ∈ lines -> ~ oneColon line k v.

(** The last line among [lines] that is [k], one colon and a value has the
    value [v]. *)
Definition lastOneColon (lines : list string) (k v : string) : Prop :=
  exists before line after,
    lines = before ++ line :: after /\ oneColon line k v /\ noOneColon after k.

End Rtsp.

(** * Package [tcp] *)

Module Tcp.

(** A [net.Addr]: what its two methods return. *)
Record Addr := { Addr_Network : string; Addr_String : string }.

(** A [gnet.Conn], by the methods [Context] calls: the two addresses ([nil]
    when the transport has none) and the result of [AsyncWrite]. *)
Record Conn := {
  Conn_RemoteAddr : option Addr;
  Conn_LocalAddr : option Addr;
  Conn_AsyncWrite : bytes -> option error
}.

(** [Context]: the interface value [Conn], [None] for [nil]. *)
Record Context := { ctx_Conn : option Conn }.

Definition NewContext : Context := {| ctx_Conn := None |}.

(** A method call through a [nil] interface value panics. *)
Definition Write (ctx : Context) (data : bytes) : outcome (option error) :=
  match ctx_Conn ctx with
  | None => Panicked
  | Some conn => Returned (Conn_AsyncWrite conn data)
  end.

(** The dynamic value handed to [SetConn]: a [gnet.Conn] or something else. *)
Inductive any := AnyConn (conn : Conn) | AnyOther.

(** [SetConn]: [nil] detaches; the type assertion panics on a value that is
    no [gnet.Conn]. *)
Definition SetConn (ctx : Context) (c : option any) : outcome Context :=
  match c with
  | None => Returned {| ctx_Conn := None |}
  | Some (AnyConn conn) => Returned {| ctx_Conn := Some conn |}
  | Some AnyOther => Panicked
  end.

Definition OnTcpClose (ctx : Context) : option error := None.

Definition OnTcpRread (ctx : Context) (buf : bytes) : Z * option error := (0, None).

Definition RemoteAddr (ctx : Context) : outcome string :=
  match ctx_Conn ctx with
  | None => Returned ""%string
  | Some conn =>
      match Conn_RemoteAddr conn with
      | None => Returned ""%string
      | Some _ =>
          match Conn_RemoteAddr conn with
          | None => Panicked
          | Some a => Returned (Addr_String a)
          end
      end
  end.

Definition LocalAddr (ctx : Context) : outcome string :=
  match ctx_Conn ctx with
  | None => Returned ""%string
  | Some conn =>
      match Conn_RemoteAddr conn with
      | None => Returned ""%string
      | Some _ =>
          match Conn_LocalAddr conn with
          | None => Panicked
          | Some a => Returned (Addr_String a)
          end
      end
  end.

Definition Network (ctx : Context) : outcome string :=
  match ctx_Conn ctx with
  | None => Returned ""%string
  | Some conn =>
      match Conn_RemoteAddr conn with
      | None => Panicked
      | Some a => Returned (Addr_Network a)
      end
  end.

End Tcp.

(** * Sample messages *)

Module Samples.

(** [strings.ToLower] with its Unicode path fixed to the identity: the
    samples are ASCII throughout, so that path is never taken on them. *)
Definition asciiToLower : string -> string := fun s => s.

(** A header-block line with its line end. *)
Definition ln (s : string) : string := s +:+ crlf.

(** The SETUP request of the testable properties. *)
Definition setupRequest : string :=
  ln "SETUP rtsp://host/stream1 RTSP/1.0" +:+ ln "CSeq: 3"
    +:+ ln "Transport: RTP/AVP;unicast" +:+ crlf.

(** A request whose request line has no colon, with one header. *)
Definition optionsRequest : string :=
  ln "OPTIONS * RTSP/1.0" +:+ ln "CSeq:1" +:+ crlf.

(** A header block that has not ended yet. *)
Definition unfinished : string :=
  ln "SETUP rtsp://host/stream1 RTSP/1.0" +:+ ln "CSeq: 3".

(** Five body bytes announced, two buffered. *)
Definition shortBody : string :=
  ln "SET_PARAMETER rtsp://host/stream1 RTSP/1.0" +:+ ln "content-length:5"
    +:+ crlf +:+ "xy".

(** A negative body length. *)
Definition negativeLength : string :=
  ln "SET_PARAMETER rtsp://host/stream1 RTSP/1.0" +:+ ln "content-length:-1"
    +:+ crlf.

(** [content-length] twice: the first value is no number, the last is. *)
Definition twoLengths : string :=
  ln "SET_PARAMETER rtsp://host/stream1 RTSP/1.0" +:+ ln "content-length:x"
    +:+ ln "content-length:1" +:+ crlf +:+ "Z".

(** [content-length] twice, both numbers, and a body of the last length. *)
Definition twoGoodLengths : string :=
  ln "SET_PARAMETER rtsp://host/stream1 RTSP/1.0" +:+ ln "content-length:7"
    +:+ ln "Content-Length:3" +:+ crlf +:+ "a:1".

(** A request with the given body and nothing else. *)
Definition withBody (body : string) : Rtsp.Request :=
  {| Rtsp.Method := "set_parameter"; Rtsp.Url := "rtsp://host/stream1";
     Rtsp.Version := "rtsp/1.0"; Rtsp.Lines := ∅; Rtsp.Content := bytes_of body |}.

(** What the decoder makes of [setupRequest]. *)
Definition setupDecoded : Rtsp.Request :=
  {| Rtsp.Method := "setup"; Rtsp.Url := "rtsp://host/stream1";
     Rtsp.Version := "rtsp/1.0";
     Rtsp.Lines := list_to_map [("setup rtsp", "//host/stream1 RTSP/1.0");
                                ("cseq", " 3");
                                ("transport", " RTP/AVP;unicast")]%string;
     Rtsp.Content := [] |}.

(** What the decoder makes of [optionsRequest], and of its serialization. *)
Definition optionsDecoded : Rtsp.Request :=
  {| Rtsp.Method := "options"; Rtsp.Url := "*"; Rtsp.Version := "rtsp/1.0";
     Rtsp.Lines := {[ "cseq" := "1" ]}%string; Rtsp.Content := [] |}.

Definition optionsRedecoded : Rtsp.Request :=
  {| Rtsp.Method := "options"; Rtsp.Url := "*"; Rtsp.Version := "rtsp/1.0";
     Rtsp.Lines := {[ "cseq" := " 1" ]}%string; Rtsp.Content := [] |}.

(** The three-line body of the testable properties. *)
Definition threeLines : string := ln "a:1" +:+ ln "badline" +:+ "b:2".

(** A connection with a remote address and no local address. *)
Definition remoteOnly : Tcp.Conn :=
  {| Tcp.Conn_RemoteAddr := Some {| Tcp.Addr_Network := "tcp"; Tcp.Addr_String := "10.0.0.7:554" |};
     Tcp.Conn_LocalAddr := None;
     Tcp.Conn_AsyncWrite := fun _ => None |}.

(** A connection for which the transport reports no address at all. *)
Definition addressless : Tcp.Conn :=
  {| Tcp.Conn_RemoteAddr := None;
     Tcp.Conn_LocalAddr := None;
     Tcp.Conn_AsyncWrite := fun _ => None |}.

(** A request line and nothing else before the terminator. *)
Definition headerless : string := ln "OPTIONS * RTSP/1.0" +:+ crlf.

(** A first line of four tokens. *)
Definition fourTokens : string :=
  ln "OPTIONS * RTSP/1.0 extra" +:+ ln "CSeq:1" +:+ crlf.

(** A body length written with a blank behind the colon. *)
Definition blankLength : string :=
  ln "SET_PARAMETER rtsp://host/stream1 RTSP/1.0" +:+ ln "Content-Length: 3"
    +:+ crlf +:+ "a:1".

(** A request without headers. *)
Definition headerlessDecoded : Rtsp.Request :=
  {| Rtsp.Method := "options"; Rtsp.Url := "*"; Rtsp.Version := "rtsp/1.0";
     Rtsp.Lines := ∅; Rtsp.Content := [] |}.

(** A body of two parameter names. *)
Definition twoNames : string := ln "packets_received" +:+ "jitter".

End Samples.

(** * Facts about the library functions *)

Module GoBytesFacts.
Import GoBytes.

Lemma HasPrefix_true s p : HasPrefix s p = true <-> exists post, s = p ++ post.
Proof.
  revert s. induction p as [|c p IH]; intros [|x s]; simpl.
  - split; [intros _; by exists [] | done].
  - split; [intros _; by exists (x :: s) | done].
  - split; [done|]. intros [post H]. discriminate.
  - destruct (decide (x = c)) as [->|Hne].
    + rewrite IH. split; intros [post H]; exists post; [by rewrite H|by simplify_eq].
    + split; [done|]. intros [post H]. simplify_eq.
Qed.

Lemma index_opt_unfold s sep :
  index_opt s sep =
  if HasPrefix s sep then Some O
  else match s with [] => None | _ :: s' => S <$> index_opt s' sep end.
Proof. by destruct s. Qed.

Lemma index_opt_Some s sep i :
  index_opt s sep = Some i ->
  s = take i s ++ sep ++ drop (i + length sep) s.
Proof.
  revert i. induction s as [|x s IH]; intros i; rewrite index_opt_unfold;
    destruct (HasPrefix _ sep) eqn:Hp.
  - intros [= <-]. apply HasPrefix_true in Hp as [post Hp].
    rewrite Hp at 1. simpl. rewrite Hp, drop_app_length. done.
  - done.
  - intros [= <-]. apply HasPrefix_true in Hp as [post Hp].
    simpl take. simpl "++" at 1. rewrite Hp at 1. rewrite Hp. 
    by rewrite drop_app_length.
  - destruct (index_opt s sep) as [j|] eqn:Hj; [|done].
    simpl. intros [= <-]. simpl. f_equal. by apply IH.
Qed.

Lemma index_opt_None s sep : index_opt s sep = None -> ~ contains s sep.
Proof.
  induction s as [|x s IH]; rewrite index_opt_unfold;
    destruct (HasPrefix _ sep) eqn:Hp; try done.
  - intros _ (pre & post & H). 
    destruct pre; [|done]. simpl in H.
    assert (HasPrefix [] sep = true) by (apply HasPrefix_true; eauto).
    congruence.
  - destruct (index_opt s sep) eqn:Hi; [done|]. intros _ (pre & post & H).
    destruct pre as [|y pre].
    + assert (HasPrefix (x :: s) sep = true) by (apply HasPrefix_true; eauto).
      congruence.
    + simplify_eq/=. apply IH; [done|]. by exists pre, post.
Qed.

Lemma Index_absent s sep : ~ contains s sep -> Index s sep = -1.
Proof.
  intros H. unfold Index. destruct (index_opt s sep) as [i|] eqn:Hi; [|done].
  destruct H. apply index_opt_Some in Hi. by eexists _, _.
Qed.

Lemma Index_minus_one s sep : Index s sep = -1 <-> ~ contains s sep.
Proof.
  split; [|apply Index_absent].
  unfold Index. destruct (index_opt s sep) eqn:Hi; [lia|].
  intros _. by apply index_opt_None.
Qed.
End GoBytesFacts.

Module GoStrconvFacts.
Import GoStrconv.

Lemma parseDigits_range n s un :
  0 <= n -> parseDigits n s = inr un -> 0 <= un <= maxUint64 \/ (s = [] /\ un = n).
Proof.
  revert n. induction s as [|c s IH]; intros n Hn; simpl.
  - intros [= <-]. by right.
  - repeat case_decide; try done. intros Hp. left.
    apply IH in Hp as [?|[-> ->]]; [done|lia|lia].
Qed.

Lemma parseInt_range s n : parseInt s = inr n -> minInt <= n <= maxInt.
Proof.
  unfold parseInt. destruct s as [|c s]; [done|].
  set (digits := if bool_decide _ then s else c :: s).
  destruct digits as [|d ds] eqn:Hd; [done|].
  destruct (parseDigits 0 (d :: ds)) as [e|un] eqn:Hp; [done|].
  apply parseDigits_range in Hp as [Hun|[? _]]; [|done|done].
  unfold minInt, maxInt, intSize in *.
  case_bool_decide; case_decide; intros [= <-]; lia.
Qed.

Lemma Atoi_range v n : Atoi v = inr n -> minInt <= n <= maxInt.
Proof.
  unfold Atoi. destruct (parseInt (bytes_of v)) eqn:H; [done|].
  intros [= <-]. by eapply parseInt_range.
Qed.

End GoStrconvFacts.

Lemma wrapInt_le z : GoStrconv.minInt <= z -> wrapInt z <= z.
Proof.
  intros H. unfold wrapInt.
  pose proof (Z.mod_le (z - GoStrconv.minInt) (2 ^ GoStrconv.intSize)) as Hm.
  unfold GoStrconv.minInt, GoStrconv.intSize in *. lia.
Qed.

Lemma wrapInt_id z : GoStrconv.minInt <= z <= GoStrconv.maxInt -> wrapInt z = z.
Proof.
  intros H. unfold wrapInt.
  unfold GoStrconv.minInt, GoStrconv.maxInt, GoStrconv.intSize in *.
  rewrite Z.mod_small; lia.
Qed.

Lemma wrapInt_overflow z :
  GoStrconv.maxInt < z < 2 ^ GoStrconv.intSize -> wrapInt z < 0.
Proof.
  intros H. unfold wrapInt.
  unfold GoStrconv.minInt, GoStrconv.maxInt, GoStrconv.intSize in *.
  replace (z - - 2 ^ (64 - 1)) with ((z - 2 ^ 63) + 1 * 2 ^ 64) by lia.
  rewrite Z.mod_add by lia. rewrite Z.mod_small; lia.
Qed.

(** * Facts about the decoder *)

Module RtspFacts.
Import Rtsp.

(** [CSeq] is [-1] without a [cseq] header and for a value [Atoi] refuses,
    the empty one included, and the number [Atoi] reads otherwise. *)
Lemma CSeq_absent req : Lines req !! "cseq"%string = None -> CSeq req = -1.
Proof. intros H. unfold CSeq, at_key. by rewrite H. Qed.

Lemma CSeq_unparsed req v e :
  Lines req !! "cseq"%string = Some v -> GoStrconv.Atoi v = inl e -> CSeq req = -1.
Proof.
  intros H Hv. unfold CSeq, at_key. rewrite H. simpl.
  case_decide; [done|]. by rewrite Hv.
Qed.

Lemma CSeq_parsed req v n :
  Lines req !! "cseq"%string = Some v -> GoStrconv.Atoi v = inr n -> CSeq req = n.
Proof.
  intros H Hv. unfold CSeq, at_key. rewrite H. simpl.
  case_decide as Hempty; [|by rewrite Hv]. by subst v.
Qed.

Section DecoderFacts.
Variable unicodeToLower : string -> string.

Local Abbreviation parseLines := (Rtsp.parseLines unicodeToLower).
Local Abbreviation headerPair := (Rtsp.headerPair unicodeToLower).
Local Abbreviation contentLengthValues := (Rtsp.contentLengthValues unicodeToLower).
Local Abbreviation UnmarshalRequest := (Rtsp.UnmarshalRequest unicodeToLower).

Lemma headerPair_nil : headerPair [] = None.
Proof. done. Qed.

(** One turn of the loop, by what the line contributes. *)
Lemma parseLines_cons line rest hdr n :
  parseLines (line :: rest) hdr n =
  match headerPair line with
  | None => parseLines rest hdr n
  | Some (k, v) =>
      if decide (k = "content-length"%string) then
        match GoStrconv.Atoi v with
        | inl e => inl e
        | inr m => parseLines rest (<[k := v]> hdr) m
        end
      else parseLines rest (<[k := v]> hdr) n
  end.
Proof.
  simpl. case_decide as Hlen.
  - apply length_zero_iff_nil in Hlen as ->. by rewrite headerPair_nil.
  - unfold Rtsp.headerPair, GoBytes.Index.
    destruct (GoBytes.index_opt line (bytes_of ":")) as [i|]; [|done].
    rewrite decide_False by lia.
    replace (Z.to_nat (Z.of_nat i + 1)) with (S i) by lia.
    by rewrite Nat2Z.id.
Qed.

Lemma contentLengthValues_cons line rest :
  contentLengthValues (line :: rest) =
  match headerPair line with
  | Some (k, v) =>
      if decide (k = "content-length"%string) then v :: contentLengthValues rest
      else contentLengthValues rest
  | None => contentLengthValues rest
  end.
Proof.
  unfold Rtsp.contentLengthValues. simpl.
  destruct (headerPair line) as [[k v]|]; [|done].
  rewrite filter_cons. simpl. by case_decide.
Qed.

(** When every [content-length] value parses, the loop runs to its end:
    it has stored every pair, and [contentLength] is the last value (or
    what it was before the loop). *)
Lemma parseLines_all_parse lines hdr n :
  Forall parses (contentLengthValues lines) ->
  parseLines lines hdr n =
  inr (store hdr (omap headerPair lines),
       match last (contentLengthValues lines) with
       | Some v => match GoStrconv.Atoi v with inr m => m | inl _ => n end
       | None => n
       end).
Proof.
  revert hdr n. induction lines as [|line rest IH]; intros hdr n; [done|].
  rewrite parseLines_cons, contentLengthValues_cons. simpl omap.
  destruct (headerPair line) as [[k v]|]; [|apply IH].
  case_decide as Hk.
  - intros [[m Hm] Hrest]%Forall_cons. rewrite Hm, IH by done. simpl.
    rewrite last_cons. destruct (last (contentLengthValues rest)) as [w|] eqn:Hw.
    + apply Forall_forall with (x := w) in Hrest as [m' Hm'].
      * by rewrite Hm'.
      * rewrite last_Some in Hw. destruct Hw as [l' ->]. set_solver.
    + by rewrite Hm.
  - intros Hrest. by rewrite IH.
Qed.

(** The loop returns early exactly on a [content-length] value that does
    not parse: the first one from the top. *)
Lemma parseLines_some_fails lines hdr n :
  Exists (fun v => ~ parses v) (contentLengthValues lines) ->
  exists e, parseLines lines hdr n = inl e.
Proof.
  revert hdr n. induction lines as [|line rest IH]; intros hdr n.
  - by intros ?%Exists_nil.
  - rewrite parseLines_cons, contentLengthValues_cons.
    destruct (headerPair line) as [[k v]|]; [|apply IH].
    case_decide as Hk; [|apply IH].
    destruct (GoStrconv.Atoi v) as [e|m] eqn:Hv; [by eauto|].
    intros [Hbad|Hrest]%Exists_cons; [|by apply IH].
    destruct Hbad. by exists m.
Qed.

Lemma parses_dec v : Decision (parses v).
Proof.
  unfold parses. destruct (GoStrconv.Atoi v) as [e|m].
  - right. by intros [n ?].
  - left. by exists m.
Defined.

Lemma store_lookup_last hdr pairs k :
  store hdr pairs !! k =
  match last (filter (fun kv => kv.1 = k) pairs) with
  | Some kv => Some kv.2
  | None => hdr !! k
  end.
Proof.
  revert hdr. induction pairs as [|[k' v'] pairs IH]; intros hdr; [done|].
  simpl. rewrite IH, filter_cons. simpl. case_decide as Hk.
  - subst k'. rewrite last_cons.
    destruct (last (filter _ pairs)); [done|]. by rewrite lookup_insert_eq.
  - destruct (last (filter _ pairs)); [done|]. by rewrite lookup_insert_ne.
Qed.

(** What [UnmarshalRequest] does once the terminator is found at [a], the
    header block has at least two lines and the request line three parts. *)
Lemma UnmarshalRequest_framed buf a lines :
  a = GoBytes.Index (data buf) CRLFCRLF -> a <> -1 ->
  lines = GoBytes.Split (take (Z.to_nat a) (data buf)) CRLF ->
  (2 <= length lines)%nat ->
  length (GoBytes.Split (default [] (lines !! 0%nat)) (bytes_of " ")) = 3%nat ->
  UnmarshalRequest buf =
  let part (i : nat) :=
    string_of (default [] (GoBytes.Split (default [] (lines !! 0%nat)) (bytes_of " ") !! i)) in
  match parseLines lines ∅ 0 with
  | inl err => Returned (None, a + 4, Some (strconv_NumError err))
  | inr (hdr, contentLength) =>
      match slice buf (a + 4) (wrapInt (a + 4 + contentLength)) with
      | Panicked => Panicked
      | Returned content =>
          Returned (Some {| Method := ToLower unicodeToLower (part 0%nat);
                            Url := ToLower unicodeToLower (part 1%nat);
                            Version := ToLower unicodeToLower (part 2%nat);
                            Lines := hdr;
                            Content := content |},
                    wrapInt (a + 4 + contentLength), None)
      end
  end.
Proof.
  intros -> Ha -> Hlen Hparts. unfold Rtsp.UnmarshalRequest.
  rewrite decide_False by done. rewrite decide_False by lia.
  rewrite decide_False by lia. done.
Qed.

Lemma Index_nonneg s sep : GoBytes.Index s sep <> -1 -> 0 <= GoBytes.Index s sep.
Proof. unfold GoBytes.Index. destruct (GoBytes.index_opt s sep); lia. Qed.

Lemma slice_length buf lo hi content :
  slice buf lo hi = Returned content -> Z.of_nat (length content) = hi - lo.
Proof.
  unfold slice, cap. case_decide as H; [|done]. intros [= <-].
  rewrite length_take, length_drop, length_app. lia.
Qed.

(** When the loop runs to its end, the header map holds the pair of every
    line of the header block, the request line included. *)
Lemma parseLines_stores lines hdr n hdr' n' :
  parseLines lines hdr n = inr (hdr', n') ->
  hdr' = store hdr (omap headerPair lines).
Proof.
  revert hdr n. induction lines as [|line rest IH]; intros hdr n.
  - by intros [= <- _].
  - rewrite parseLines_cons. simpl omap.
    destruct (headerPair line) as [[k v]|]; [|apply IH].
    case_decide; [|apply IH].
    destruct (GoStrconv.Atoi v); [done|apply IH].
Qed.

Lemma UnmarshalRequest_Lines buf a lines req consumed :
  a = GoBytes.Index (data buf) CRLFCRLF -> a <> -1 ->
  lines = GoBytes.Split (take (Z.to_nat a) (data buf)) CRLF ->
  (2 <= length lines)%nat ->
  length (GoBytes.Split (default [] (lines !! 0%nat)) (bytes_of " ")) = 3%nat ->
  UnmarshalRequest buf = Returned (Some req, consumed, None) ->
  Lines req = store ∅ (omap headerPair lines).
Proof.
  intros Ha Hfound Hlines Hlen Hparts.
  rewrite (UnmarshalRequest_framed buf a lines) by done. cbv zeta.
  destruct (parseLines lines ∅ 0) as [e|[hdr n]] eqn:Hloop; [done|].
  destruct (slice _ _ _); [|done]. intros [= <- _].
  by apply parseLines_stores in Hloop.
Qed.

(** ** Properties of the decoder *)

(** C6: a buffer in which the four-byte terminator CR LF CR LF does not
    occur decodes to no request, a byte count of -1 and the
    incomplete-packet error. *)
Theorem no_terminator_is_incomplete buf :
  ~ contains (data buf) CRLFCRLF ->
  UnmarshalRequest buf = Returned (None, -1, Some (errors_New "incomplete packet")).
Proof.
  intros Habsent. unfold Rtsp.UnmarshalRequest.
  by rewrite GoBytesFacts.Index_absent.
Qed.

(** C5, as the code has it: with the terminator at [a] and a well-formed
    request line, the decoder returns the [Atoi] error with [a + 4] bytes
    consumed exactly when some [content-length] occurrence has a value
    that does not parse; and when every occurrence parses, the last one
    gives the body length, the bytes consumed and the stored value. *)
Theorem content_length_error_iff_some_occurrence_fails buf a lines :
  a = GoBytes.Index (data buf) CRLFCRLF -> a <> -1 ->
  lines = GoBytes.Split (take (Z.to_nat a) (data buf)) CRLF ->
  (2 <= length lines)%nat ->
  length (GoBytes.Split (default [] (lines !! 0%nat)) (bytes_of " ")) = 3%nat ->
  ((exists e, UnmarshalRequest buf = Returned (None, a + 4, Some (strconv_NumError e)))
     <-> Exists (fun v => ~ parses v) (contentLengthValues lines))
  /\ (forall v n,
        Forall parses (contentLengthValues lines) ->
        last (contentLengthValues lines) = Some v ->
        GoStrconv.Atoi v = inr n ->
        0 <= n -> a + 4 + n <= cap buf -> cap buf <= GoStrconv.maxInt ->
        exists req,
          UnmarshalRequest buf = Returned (Some req, a + 4 + n, None)
          /\ Lines req !! "content-length"%string = Some v
          /\ Z.of_nat (length (Content req)) = n).
Proof.
  intros Ha Hfound Hlines Hlen Hparts.
  rewrite (UnmarshalRequest_framed buf a lines) by done. cbv zeta.
  assert (0 <= a) as Hpos by (subst a; by apply Index_nonneg).
  destruct (Forall_Exists_dec parses (fun v => ~ parses v)
              (fun v => match parses_dec v with left p => left p | right q => right q end)
              (contentLengthValues lines)) as [Hall|Hsome].
  - rewrite parseLines_all_parse by done. split.
    + split.
      * intros [e He]. by destruct (slice _ _ _).
      * intros Hex. by apply Exists_not_Forall in Hex.
    + intros v n _ Hlast Hv Hn Hcap Hmax. rewrite Hlast, Hv.
      assert (GoStrconv.minInt <= 0) by done.
      rewrite wrapInt_id by lia.
      destruct (slice buf (a + 4) (a + 4 + n)) as [content|] eqn:Hs.
      * eexists. split; [done|]. simpl. split.
        -- unfold store. fold (store ∅ (omap headerPair lines)).
           rewrite store_lookup_last.
           unfold Rtsp.contentLengthValues in Hlast.
           rewrite fmap_last in Hlast.
           destruct (last (filter _ _)) as [[k w]|]; by simplify_eq/=.
        -- apply slice_length in Hs. lia.
      * unfold slice in Hs. rewrite decide_True in Hs by lia. done.
  - split.
    + destruct (parseLines_some_fails lines ∅ 0 Hsome) as [e ->]. split; eauto.
    + intros v n Hall. by apply Exists_not_Forall in Hsome.
Qed.

(** C10: with the terminator at [a] and a well-formed request line, a
    [content-length] whose last value parses to a negative number makes
    the body slice run from [a + 4] down to less, and the decoder panics:
    it returns neither an error nor a request. *)
Theorem negative_content_length_panics buf a lines v n :
  a = GoBytes.Index (data buf) CRLFCRLF -> a <> -1 ->
  lines = GoBytes.Split (take (Z.to_nat a) (data buf)) CRLF ->
  (2 <= length lines)%nat ->
  length (GoBytes.Split (default [] (lines !! 0%nat)) (bytes_of " ")) = 3%nat ->
  Forall parses (contentLengthValues lines) ->
  last (contentLengthValues lines) = Some v ->
  GoStrconv.Atoi v = inr n ->
  n < 0 ->
  UnmarshalRequest buf = Panicked.
Proof.
  intros Ha Hfound Hlines Hlen Hparts Hall Hlast Hv Hn.
  rewrite (UnmarshalRequest_framed buf a lines) by done. cbv zeta.
  assert (0 <= a) as Hpos by (subst a; by apply Index_nonneg).
  rewrite parseLines_all_parse by done. rewrite Hlast, Hv.
  pose proof (GoStrconvFacts.Atoi_range _ _ Hv) as Hrange.
  assert (wrapInt (a + 4 + n) <= a + 4 + n) as Hle.
  { apply wrapInt_le. unfold GoStrconv.minInt, GoStrconv.intSize in *. lia. }
  unfold slice. by rewrite decide_False by lia.
Qed.

(** C4, as the code has it: with the terminator at [a], a well-formed
    request line and a [content-length] whose last value parses to
    [n >= 0], a buffer shorter than [a + 4 + n] never yields the
    incomplete-packet error: the body slice panics when the capacity is
    short as well, and otherwise reads the body past the end of the
    buffer. *)
Theorem short_body_is_not_incomplete buf a lines v n :
  a = GoBytes.Index (data buf) CRLFCRLF -> a <> -1 ->
  lines = GoBytes.Split (take (Z.to_nat a) (data buf)) CRLF ->
  (2 <= length lines)%nat ->
  length (GoBytes.Split (default [] (lines !! 0%nat)) (bytes_of " ")) = 3%nat ->
  Forall parses (contentLengthValues lines) ->
  last (contentLengthValues lines) = Some v ->
  GoStrconv.Atoi v = inr n ->
  0 <= n -> len buf < a + 4 + n -> cap buf <= GoStrconv.maxInt ->
  (cap buf < a + 4 + n -> UnmarshalRequest buf = Panicked)
  /\ (a + 4 + n <= cap buf ->
      exists req, UnmarshalRequest buf = Returned (Some req, a + 4 + n, None)
                  /\ len buf < a + 4 + Z.of_nat (length (Content req))).
Proof.
  intros Ha Hfound Hlines Hlen Hparts Hall Hlast Hv Hn Hshort Hmax.
  rewrite (UnmarshalRequest_framed buf a lines) by done. cbv zeta.
  assert (0 <= a) as Hpos by (subst a; by apply Index_nonneg).
  rewrite parseLines_all_parse by done. rewrite Hlast, Hv.
  pose proof (GoStrconvFacts.Atoi_range _ _ Hv) as Hrange.
  assert (a + 4 <= cap buf) as Hterm.
  { subst a. unfold GoBytes.Index in *.
    destruct (GoBytes.index_opt (data buf) CRLFCRLF) as [i|] eqn:Hi; [|done].
    apply GoBytesFacts.index_opt_Some in Hi.
    apply (f_equal length) in Hi. rewrite !length_app, length_take in Hi.
    unfold cap. simpl in Hi. lia. }
  split.
  - intros Hcap. unfold slice.
    destruct (decide (a + 4 + n <= GoStrconv.maxInt)).
    + rewrite wrapInt_id by (unfold GoStrconv.minInt, GoStrconv.intSize in *; lia).
      by rewrite decide_False by lia.
    + assert (wrapInt (a + 4 + n) < 0).
      { apply wrapInt_overflow.
        unfold GoStrconv.maxInt, GoStrconv.intSize in *. lia. }
      by rewrite decide_False by lia.
  - intros Hcap.
    rewrite wrapInt_id by (unfold GoStrconv.minInt, GoStrconv.intSize in *; lia).
    destruct (slice buf (a + 4) (a + 4 + n)) as [content|] eqn:Hs.
    + eexists. split; [done|]. simpl. apply slice_length in Hs. lia.
    + unfold slice in Hs. rewrite decide_True in Hs by lia. done.
Qed.

(** ** The decoder on the sample messages *)

Lemma setupRequest_decoded :
  UnmarshalRequest (exactly (bytes_of Samples.setupRequest)) =
  Returned (Some Samples.setupDecoded, len (exactly (bytes_of Samples.setupRequest)), None).
Proof. vm_compute. reflexivity. Qed.

(** C1: the SETUP example decodes, with method [setup], an empty body and
    all of the input consumed; but its [CSeq: 3] line is stored with the
    blank after the colon, [Atoi] refuses that value, and [CSeq] is [-1],
    not [3]. *)
Theorem setup_example_cseq_is_not_three :
  UnmarshalRequest (exactly (bytes_of Samples.setupRequest)) =
    Returned (Some Samples.setupDecoded, len (exactly (bytes_of Samples.setupRequest)), None)
  /\ Method Samples.setupDecoded = "setup"%string
  /\ length (Content Samples.setupDecoded) = 0%nat
  /\ Lines Samples.setupDecoded !! "cseq"%string = Some " 3"%string
  /\ CSeq Samples.setupDecoded = -1.
Proof. split; [apply setupRequest_decoded|]. by vm_compute. Qed.

(** C3: the loop over the header block starts at the request line, so the
    request line of the SETUP example, which has a colon in its URL, is
    stored as a header of its own. *)
Theorem request_line_is_stored_as_header :
  UnmarshalRequest (exactly (bytes_of Samples.setupRequest)) =
    Returned (Some Samples.setupDecoded, 75, None)
  /\ Lines Samples.setupDecoded !! "setup rtsp"%string
     = Some "//host/stream1 RTSP/1.0"%string
  /\ headerPair (bytes_of "SETUP rtsp://host/stream1 RTSP/1.0")
     = Some ("setup rtsp", "//host/stream1 RTSP/1.0")%string.
Proof. split; [apply setupRequest_decoded|]. by vm_compute. Qed.

Lemma optionsRequest_decoded :
  UnmarshalRequest (exactly (bytes_of Samples.optionsRequest)) =
  Returned (Some Samples.optionsDecoded, 30, None).
Proof. vm_compute. reflexivity. Qed.

(** The only serialization of the decoded OPTIONS sample. *)
Lemma optionsDecoded_ToString s :
  ToString Samples.optionsDecoded s ->
  s = (Samples.ln "options * rtsp/1.0" +:+ Samples.ln "cseq: 1" +:+ crlf)%string.
Proof.
  intros (headers & (order & Hperm & ->) & ->).
  replace (map_to_list (Lines Samples.optionsDecoded))
    with [("cseq", "1")%string] in Hperm by (by vm_compute).
  apply Permutation_singleton_r in Hperm as ->. by vm_compute.
Qed.

(** C2: the OPTIONS sample decodes with [cseq] stored as [1]; every
    serialization of the decoded request writes a blank after the colon,
    and decoding that yields a request whose [cseq] value is [ 1], with
    the blank: the header values differ, and so does [CSeq]. *)
Theorem roundtrip_changes_header_values :
  UnmarshalRequest (exactly (bytes_of Samples.optionsRequest)) =
    Returned (Some Samples.optionsDecoded, 30, None)
  /\ (exists s, ToString Samples.optionsDecoded s)
  /\ (forall s, ToString Samples.optionsDecoded s ->
        UnmarshalRequest (exactly (bytes_of s)) =
          Returned (Some Samples.optionsRedecoded, 31, None))
  /\ Lines Samples.optionsDecoded !! "cseq"%string = Some "1"%string
  /\ Lines Samples.optionsRedecoded !! "cseq"%string = Some " 1"%string
  /\ CSeq Samples.optionsDecoded = 1
  /\ CSeq Samples.optionsRedecoded = -1.
Proof.
  split; [apply optionsRequest_decoded|]. split.
  { eexists. eexists. split; [|done]. eexists. split; [|done].
    by vm_compute. }
  split.
  { intros s ->%optionsDecoded_ToString. vm_compute. reflexivity. }
  by vm_compute.
Qed.

End DecoderFacts.

End RtspFacts.

(** * Facts about [Split] on a one-byte separator *)

Module SplitFacts.
Import GoBytes.

Section OneByte.
Variable c : byte.

Lemma HasPrefix_single s : HasPrefix s [c] = true <-> exists r, s = c :: r.
Proof. by rewrite GoBytesFacts.HasPrefix_true. Qed.

Lemma index_opt_absent s : c ∉ s -> index_opt s [c] = None.
Proof.
  intros Hc. destruct (index_opt s [c]) as [i|] eqn:Hi; [|done].
  apply GoBytesFacts.index_opt_Some in Hi. destruct Hc. rewrite Hi. set_solver.
Qed.

Lemma index_opt_first k r : c ∉ k -> index_opt (k ++ c :: r) [c] = Some (length k).
Proof.
  induction k as [|x k IH]; intros Hc.
  - rewrite GoBytesFacts.index_opt_unfold.
    assert (HasPrefix ([] ++ c :: r) [c] = true) as ->; [|done].
    apply HasPrefix_single. by exists r.
  - rewrite GoBytesFacts.index_opt_unfold.
    destruct (HasPrefix _ _) eqn:Hp.
    + apply HasPrefix_single in Hp as [r' Hp]. simplify_eq/=. set_solver.
    + simpl. rewrite IH by set_solver. done.
Qed.

Lemma genSplit_absent fuel s : c ∉ s -> genSplit fuel s [c] = [s].
Proof. intros Hc. destruct fuel; simpl; [done|]. by rewrite index_opt_absent. Qed.

Lemma genSplit_first fuel k r :
  c ∉ k -> genSplit (S fuel) (k ++ c :: r) [c] = k :: genSplit fuel r [c].
Proof.
  intros Hc. simpl. rewrite index_opt_first by done.
  rewrite take_app_length. f_equal. f_equal.
  rewrite drop_app_ge by (simpl; lia).
  simpl length.
  replace (length k + 1 - length k)%nat with 1%nat by lia.
  done.
Qed.

Lemma genSplit_nonempty fuel s sep : (1 <= length (genSplit fuel s sep))%nat.
Proof. destruct fuel; simpl; [lia|]. destruct (index_opt s sep); simpl; lia. Qed.

(** [Split] yields two parts exactly for a string with one occurrence of
    the separator, and the parts are what is before and behind it. *)
Lemma Split_two s :
  length (Split s [c]) = 2%nat ->
  exists k v, s = k ++ c :: v /\ (c ∉ k) /\ (c ∉ v) /\ Split s [c] = [k; v].
Proof.
  unfold Split. destruct (decide (c ∈ s)) as [Hin|Hout].
  - apply list_elem_of_split_l in Hin as (k & r & -> & Hk).
    rewrite length_app. simpl length.
    replace (length k + S (length r))%nat with (S (length k + length r)) by lia.
    rewrite genSplit_first by done.
    destruct (decide (c ∈ r)) as [Hin'|Hout'].
    + apply list_elem_of_split_l in Hin' as (k2 & r2 & -> & Hk2).
      rewrite length_app. simpl length.
      replace (length k + (length k2 + S (length r2)))%nat
        with (S (length k + length k2 + length r2)) by lia.
      rewrite genSplit_first by done. simpl.
      pose proof (genSplit_nonempty (length k + length k2 + length r2) r2 [c]). lia.
    + rewrite genSplit_absent by done. intros _. by exists k, r.
  - rewrite genSplit_absent by done. done.
Qed.

Lemma Split_one_separator k v :
  c ∉ k -> c ∉ v -> Split (k ++ c :: v) [c] = [k; v].
Proof.
  intros Hk Hv. unfold Split. rewrite length_app. simpl length.
  replace (length k + S (length v))%nat with (S (length k + length v)) by lia.
  rewrite genSplit_first by done. by rewrite genSplit_absent.
Qed.
End OneByte.

End SplitFacts.

(** * Facts about the parameters of SET_PARAMETER *)

Module ParameterFacts.
Import Rtsp.

Lemma bytes_of_string_of b : bytes_of (string_of b) = b.
Proof. apply String.list_byte_of_string_of_list_byte. Qed.

Lemma string_of_bytes_of s : string_of (bytes_of s) = s.
Proof. apply String.string_of_list_byte_of_string. Qed.

Lemma first_occurrence_unique (c : byte) k k' v v' :
  c ∉ k -> c ∉ k' -> k ++ c :: v = k' ++ c :: v' -> k = k' /\ v = v'.
Proof.
  revert k'. induction k as [|x k IH]; intros [|x' k'] Hk Hk' Heq; simplify_eq/=.
  - done.
  - by apply not_elem_of_cons in Hk' as [? _].
  - by apply not_elem_of_cons in Hk as [? _].
  - apply not_elem_of_cons in Hk as [_ Hk], Hk' as [_ Hk'].
    by destruct (IH k') as [-> ->].
Qed.

Lemma oneColon_inj line k v k' v' :
  oneColon line k v -> oneColon line k' v' -> k = k' /\ v = v'.
Proof.
  intros (H1 & Hk & Hv) (H2 & Hk' & Hv'). rewrite H1 in H2.
  apply first_occurrence_unique in H2 as [Hkk Hvv]; [|done..].
  apply (f_equal string_of) in Hkk, Hvv. by rewrite !string_of_bytes_of in Hkk, Hvv.
Qed.

Lemma addParameter_oneColon params line k v :
  oneColon line k v -> addParameter params line = <[k := v]> params.
Proof.
  intros (Hline & Hk & Hv). unfold addParameter, GoStrings.Split.
  change (bytes_of ":") with [":"%byte]. rewrite Hline.
  rewrite SplitFacts.Split_one_separator by done. simpl.
  by rewrite !string_of_bytes_of.
Qed.

Lemma addParameter_skip params line :
  (forall k v, ~ oneColon line k v) -> addParameter params line = params.
Proof.
  intros Hnone. unfold addParameter, GoStrings.Split.
  case_decide as Hlen; [done|]. exfalso.
  change (bytes_of ":") with [":"%byte] in Hlen. rewrite length_fmap in Hlen.
  destruct (SplitFacts.Split_two ":"%byte (bytes_of line)) as (k & v & Hline & Hk & Hv & _); [lia|].
  apply (Hnone (string_of k) (string_of v)).
  unfold oneColon. by rewrite !bytes_of_string_of.
Qed.

Lemma oneColon_cases line :
  (exists k v, oneColon line k v) \/ (forall k v, ~ oneColon line k v).
Proof.
  destruct (decide (length (GoBytes.Split (bytes_of line) [":"%byte]) = 2%nat)) as [Hlen|Hlen].
  - left. destruct (SplitFacts.Split_two _ _ Hlen) as (k & v & Hline & Hk & Hv & _).
    exists (string_of k), (string_of v). unfold oneColon.
    by rewrite !bytes_of_string_of.
  - right. intros k v (Hline & Hk & Hv). destruct Hlen. rewrite Hline.
    by rewrite SplitFacts.Split_one_separator.
Qed.

Lemma noOneColon_cons line lines k :
  noOneColon (line :: lines) k <-> (forall v, ~ oneColon line k v) /\ noOneColon lines k.
Proof.
  unfold noOneColon. split.
  - intros H. split.
    + intros v. apply H. by left.
    + intros l v Hl. apply H. by right.
  - intros [Hline Hrest] l v [->|Hl]%elem_of_cons; [apply Hline|by apply Hrest].
Qed.

Lemma lastOneColon_nil k v : ~ lastOneColon [] k v.
Proof. intros (before & line & after & H & _). by destruct before. Qed.

Lemma lastOneColon_cons line lines k v :
  lastOneColon (line :: lines) k v <->
  lastOneColon lines k v \/ (oneColon line k v /\ noOneColon lines k).
Proof.
  split.
  - intros ([|x before] & line' & after & Heq & Hone & Hnone); simplify_eq/=.
    + by right.
    + left. by exists before, line', after.
  - intros [(before & line' & after & -> & Hone & Hnone)|[Hone Hnone]].
    + by exists (line :: before), line', after.
    + by exists [], line, lines.
Qed.

(** The loop of [Parameters]: a key ends up with the value of the last line
    that is the key, one colon and a value, or with what it had before when
    there is no such line. *)
Lemma foldl_addParameter lines params k v :
  foldl addParameter params lines !! k = Some v <->
  lastOneColon lines k v \/ (params !! k = Some v /\ noOneColon lines k).
Proof.
  revert params. induction lines as [|line lines IH]; intros params.
  - simpl. split; [intros H; right; split; [done|]; by intros ?? ?%elem_of_nil|].
    intros [H%lastOneColon_nil|[H _]]; done.
  - simpl. rewrite IH, lastOneColon_cons, noOneColon_cons.
    destruct (oneColon_cases line) as [(k0 & v0 & Hone)|Hnone].
    + rewrite (addParameter_oneColon _ _ _ _ Hone).
      destruct (decide (k0 = k)) as [->|Hne].
      * rewrite lookup_insert_eq. split.
        -- intros [?|[[= <-] ?]]; [by left; left|]. left. by right.
        -- intros [[?|[Hone' ?]]|(_ & Hno & _)].
           ++ by left.
           ++ destruct (oneColon_inj _ _ _ _ _ Hone Hone') as [_ ->]. by right.
           ++ by destruct (Hno v0).
      * rewrite lookup_insert_ne by done. split.
        -- intros [?|[? ?]]; [by left; left|]. right. split; [done|]. split; [|done].
           intros v' Hone'. by destruct (oneColon_inj _ _ _ _ _ Hone Hone').
        -- intros [[?|[Hone' ?]]|(? & _ & ?)]; [by left| |by right].
           by destruct (oneColon_inj _ _ _ _ _ Hone Hone').
    + rewrite addParameter_skip by done. split.
      * intros [?|[? ?]]; [by left; left|]. right. split; [done|]. split; [|done].
        intros v'. apply Hnone.
      * intros [[?|[Hone' ?]]|(? & _ & ?)]; [by left| |by right].
        by destruct (Hnone k v).
Qed.

(** C9, as the code has it: [Parameters] splits the body into lines and
    every line on every colon; a line counts when that gives exactly two
    parts, which is when it has exactly one colon, and any other line is
    skipped, a line with a colon in its value included. A key maps to the
    value of the last line that counts for it. *)
Theorem Parameters_keeps_lines_with_one_colon :
  (forall req,
      Content req <> [] ->
      exists params,
        SetParameterRequest_Parameters req = Some params
        /\ forall k v,
             params !! k = Some v <->
             lastOneColon (GoStrings.Split (string_of (Content req)) crlf) k v)
  /\ SetParameterRequest_Parameters (Samples.withBody Samples.threeLines)
     = Some (list_to_map [("a", "1"); ("b", "2")]%string)
  /\ SetParameterRequest_Parameters (Samples.withBody "k:v:w") = Some ∅.
Proof.
  split.
  - intros req Hbody. unfold SetParameterRequest_Parameters.
    rewrite decide_False by (by destruct (Content req)).
    eexists. split; [done|]. intros k v. rewrite foldl_addParameter.
    rewrite lookup_empty. split; [|by left]. by intros [?|[? _]].
  - split; by vm_compute.
Qed.

End ParameterFacts.

(** * Facts about the connection context *)

Module TcpFacts.
Import Tcp.

(** Without a handle every address query returns the empty string. *)
Lemma detached_queries_are_empty ctx :
  ctx_Conn ctx = None ->
  RemoteAddr ctx = Returned ""%string
  /\ LocalAddr ctx = Returned ""%string
  /\ Network ctx = Returned ""%string.
Proof. intros H. unfold RemoteAddr, LocalAddr, Network. by rewrite H. Qed.

(** [RemoteAddr] never panics. *)
Lemma RemoteAddr_returns ctx : exists s, RemoteAddr ctx = Returned s.
Proof.
  unfold RemoteAddr. destruct (ctx_Conn ctx) as [conn|]; [|by eexists].
  destruct (Conn_RemoteAddr conn); by eexists.
Qed.

(** C7: the address queries are empty without a handle, and [RemoteAddr] is
    empty without a remote address; but [LocalAddr] tests the remote address
    and then calls through the local one, and [Network] tests only the
    handle, so on a handle without the address they call through they panic
    instead of returning the empty string. *)
Theorem LocalAddr_and_Network_panic_without_address :
  (forall ctx, ctx_Conn ctx = None ->
     RemoteAddr ctx = Returned ""%string
     /\ LocalAddr ctx = Returned ""%string
     /\ Network ctx = Returned ""%string)
  /\ (forall conn, Conn_RemoteAddr conn = None ->
        RemoteAddr {| ctx_Conn := Some conn |} = Returned ""%string)
  /\ LocalAddr {| ctx_Conn := Some Samples.remoteOnly |} = Panicked
  /\ Network {| ctx_Conn := Some Samples.addressless |} = Panicked.
Proof.
  split; [apply detached_queries_are_empty|]. split; [|done].
  intros conn H. unfold RemoteAddr. simpl. by rewrite H.
Qed.

(** C8: [Write] on a context whose handle is [nil], whether never attached
    or detached by [SetConn(nil)], calls [AsyncWrite] through the [nil]
    handle: it panics and returns no error. *)
Theorem Write_detached_panics :
  (forall data, Write NewContext data = Panicked)
  /\ (forall ctx data,
        exists ctx', SetConn ctx None = Returned ctx' /\ Write ctx' data = Panicked).
Proof. split; [done|]. intros ctx data. by eexists. Qed.

End TcpFacts.

(** * The properties on the sample messages *)

Module OnSamples.
Import Rtsp Samples.

Lemma unfinished_has_no_terminator : ~ contains (bytes_of unfinished) CRLFCRLF.
Proof. apply GoBytesFacts.Index_minus_one. vm_compute. reflexivity. Defined.

(** The theorem of C6 on the unfinished header block. *)
Lemma no_terminator_on_unfinished :
  ~ contains (data (exactly (bytes_of unfinished))) CRLFCRLF
  /\ UnmarshalRequest asciiToLower (exactly (bytes_of unfinished))
     = Returned (None, -1, Some (errors_New "incomplete packet")).
Proof.
  split; [apply unfinished_has_no_terminator|].
  apply (RtspFacts.no_terminator_is_incomplete asciiToLower (exactly (bytes_of unfinished))).
  apply unfinished_has_no_terminator.
Defined.

Lemma parses_digits v n : GoStrconv.Atoi v = inr n -> parses v.
Proof. intros H. by exists n. Defined.

(** The theorem of C5 on a message with two well-formed [content-length]
    lines: the last one, [3], gives the body length. *)
Lemma last_content_length_on_twoGoodLengths :
  GoBytes.Index (data (exactly (bytes_of twoGoodLengths))) CRLFCRLF = 78
  /\ exists req,
       UnmarshalRequest asciiToLower (exactly (bytes_of twoGoodLengths))
         = Returned (Some req, 78 + 4 + 3, None)
       /\ Lines req !! "content-length"%string = Some "3"%string
       /\ Z.of_nat (length (Content req)) = 3.
Proof.
  split; [vm_compute; reflexivity|].
  pose (buf := exactly (bytes_of twoGoodLengths)).
  pose (lines := GoBytes.Split (take (Z.to_nat 78) (data buf)) CRLF).
  destruct (RtspFacts.content_length_error_iff_some_occurrence_fails
              asciiToLower buf 78 lines) as [_ Hlast].
  - vm_compute. reflexivity.
  - lia.
  - reflexivity.
  - vm_compute. lia.
  - vm_compute. reflexivity.
  - apply (Hlast "3"%string 3).
    + replace (contentLengthValues asciiToLower lines) with ["7"; "3"]%string
        by (vm_compute; reflexivity).
      repeat constructor.
      * apply (parses_digits "7" 7). vm_compute. reflexivity.
      * apply (parses_digits "3" 3). vm_compute. reflexivity.
    + vm_compute. reflexivity.
    + vm_compute. reflexivity.
    + lia.
    + vm_compute. discriminate.
    + vm_compute. discriminate.
Defined.

(** C5 as stated fails on a message whose first [content-length] is no
    number and whose last is: the last value parses, and the decoder has
    returned the error of the first one. *)
Lemma first_content_length_decides_on_twoLengths :
  ~ lastOccurrenceDecides asciiToLower (exactly (bytes_of twoLengths)).
Proof.
  unfold lastOccurrenceDecides. intros [Hfails _].
  destruct Hfails as (v & Hlast & Hbad).
  - eexists. vm_compute. reflexivity.
  - assert (v = "1"%string) as -> by (vm_compute in Hlast; congruence).
    apply Hbad. exists 1. vm_compute. reflexivity.
Qed.

(** The theorem of C10 on a message that announces a body of [-1] bytes. *)
Lemma negative_length_panics_on_sample :
  GoStrconv.Atoi "-1" = inr (-1)
  /\ UnmarshalRequest asciiToLower (exactly (bytes_of negativeLength)) = Panicked.
Proof.
  split; [vm_compute; reflexivity|].
  pose (buf := exactly (bytes_of negativeLength)).
  pose (lines := GoBytes.Split (take (Z.to_nat 61) (data buf)) CRLF).
  apply (RtspFacts.negative_content_length_panics
           asciiToLower buf 61 lines "-1"%string (-1)).
  - vm_compute. reflexivity.
  - lia.
  - reflexivity.
  - vm_compute. lia.
  - vm_compute. reflexivity.
  - replace (contentLengthValues asciiToLower lines) with ["-1"]%string
      by (vm_compute; reflexivity).
    repeat constructor. apply (parses_digits "-1" (-1)). vm_compute. reflexivity.
  - vm_compute. reflexivity.
  - vm_compute. reflexivity.
  - lia.
Defined.

(** The theorem of C4 on a message that announces five body bytes and
    carries two, in a buffer without spare capacity. *)
Lemma short_body_panics_on_sample :
  len (exactly (bytes_of shortBody)) < 60 + 4 + 5
  /\ UnmarshalRequest asciiToLower (exactly (bytes_of shortBody)) = Panicked.
Proof.
  split; [vm_compute; reflexivity|].
  pose (buf := exactly (bytes_of shortBody)).
  pose (lines := GoBytes.Split (take (Z.to_nat 60) (data buf)) CRLF).
  destruct (RtspFacts.short_body_is_not_incomplete
              asciiToLower buf 60 lines "5"%string 5) as [Hpanic _].
  - vm_compute. reflexivity.
  - lia.
  - reflexivity.
  - vm_compute. lia.
  - vm_compute. reflexivity.
  - replace (contentLengthValues asciiToLower lines) with ["5"]%string
      by (vm_compute; reflexivity).
    repeat constructor. apply (parses_digits "5" 5). vm_compute. reflexivity.
  - vm_compute. reflexivity.
  - vm_compute. reflexivity.
  - lia.
  - vm_compute. reflexivity.
  - vm_compute. discriminate.
  - apply Hpanic. vm_compute. reflexivity.
Defined.

(** The general part of the theorem of C9 on the three-line body: the key
    [b] has the value of the line [b:2]. *)
Lemma parameters_of_threeLines :
  Content (withBody threeLines) <> []
  /\ exists params,
       SetParameterRequest_Parameters (withBody threeLines) = Some params
       /\ forall k v,
            params !! k = Some v <->
            lastOneColon (GoStrings.Split (string_of (Content (withBody threeLines))) crlf) k v.
Proof.
  split; [discriminate|].
  apply (proj1 ParameterFacts.Parameters_keeps_lines_with_one_colon (withBody threeLines)).
  discriminate.
Defined.

(** C9 as stated fails on a line whose value has a colon: the line [k:v:w]
    splits into three parts and is skipped, so [k] has no value. *)
Lemma colon_in_value_is_skipped :
  ~ (exists params,
       SetParameterRequest_Parameters (withBody "k:v:w") = Some params
       /\ params !! "k"%string = Some "v:w"%string).
Proof.
  intros (params & Hp & Hk). vm_compute in Hp.
  injection Hp as <-. vm_compute in Hk. discriminate.
Qed.

End OnSamples.

(** * More facts about [Index] and [Split] *)

Module SearchFacts.
Import GoBytes.

Lemma index_opt_bound s sep i :
  index_opt s sep = Some i -> (i + length sep <= length s)%nat.
Proof.
  revert i. induction s as [|x s IH]; intros i; rewrite GoBytesFacts.index_opt_unfold;
    destruct (HasPrefix _ sep) eqn:Hp.
  - intros [= <-]. apply GoBytesFacts.HasPrefix_true in Hp as [post Hp].
    apply (f_equal length) in Hp. rewrite length_app in Hp. simpl in *. lia.
  - done.
  - intros [= <-]. apply GoBytesFacts.HasPrefix_true in Hp as [post Hp].
    apply (f_equal length) in Hp. rewrite length_app in Hp. simpl in *. lia.
  - destruct (index_opt s sep) as [j|] eqn:Hj; [|done].
    intros [= <-]. specialize (IH j eq_refl). simpl. lia.
Qed.

Lemma HasPrefix_app s t sep : HasPrefix s sep = true -> HasPrefix (s ++ t) sep = true.
Proof.
  rewrite !GoBytesFacts.HasPrefix_true. intros [post ->].
  exists (post ++ t). by rewrite <-(assoc_L (++)).
Qed.

Lemma HasPrefix_app_inv s t sep :
  HasPrefix (s ++ t) sep = true -> (length sep <= length s)%nat -> HasPrefix s sep = true.
Proof.
  revert s. induction sep as [|c sep IH]; intros [|x s]; simpl; try done; try lia.
  case_decide; [|done]. intros Hp Hlen. apply IH; [done|lia].
Qed.

(** An occurrence found in a buffer is found at the same place once more
    bytes follow. *)
Lemma index_opt_app s t sep i :
  index_opt s sep = Some i -> index_opt (s ++ t) sep = Some i.
Proof.
  revert i. induction s as [|x s IH]; intros i Hi.
  - rewrite GoBytesFacts.index_opt_unfold in Hi.
    destruct (HasPrefix [] sep) eqn:Hp; [|done]. simplify_eq.
    rewrite GoBytesFacts.index_opt_unfold. by rewrite (HasPrefix_app [] t sep Hp).
  - pose proof (index_opt_bound _ _ _ Hi) as Hb.
    rewrite GoBytesFacts.index_opt_unfold in Hi.
    rewrite GoBytesFacts.index_opt_unfold.
    destruct (HasPrefix (x :: s) sep) eqn:Hp.
    + by rewrite (HasPrefix_app _ t _ Hp).
    + destruct (HasPrefix ((x :: s) ++ t) sep) eqn:Hp'.
      * apply HasPrefix_app_inv in Hp'; [congruence|lia].
      * simpl. destruct (index_opt s sep) as [j|] eqn:Hj; [|done].
        by rewrite (IH j eq_refl).
Qed.

(** An occurrence is found at it or before it. *)
Lemma index_opt_occurrence pre sep post :
  exists i, index_opt (pre ++ sep ++ post) sep = Some i /\ (i <= length pre)%nat.
Proof.
  induction pre as [|x pre IH].
  - exists O. split; [|done]. rewrite GoBytesFacts.index_opt_unfold.
    assert (HasPrefix ([] ++ sep ++ post) sep = true) as ->; [|done].
    apply GoBytesFacts.HasPrefix_true. by exists post.
  - destruct IH as (i & Hi & Hle). rewrite GoBytesFacts.index_opt_unfold.
    destruct (HasPrefix _ sep); [exists O; split; [done|simpl; lia]|].
    simpl. rewrite Hi. exists (S i). split; [done|simpl; lia].
Qed.

(** What is before the first occurrence has no occurrence. *)
Lemma index_opt_minimal s sep i :
  sep <> [] -> index_opt s sep = Some i -> ~ contains (take i s) sep.
Proof.
  intros Hsep Hi (pre & post & Hocc).
  pose proof (index_opt_bound _ _ _ Hi) as Hb.
  assert (s = pre ++ sep ++ (post ++ drop i s)) as Hs.
  { rewrite <-(take_drop i s) at 1. rewrite Hocc. by rewrite <-!(assoc_L (++)). }
  destruct (index_opt_occurrence pre sep (post ++ drop i s)) as (j & Hj & Hle).
  rewrite <-Hs, Hi in Hj. simplify_eq.
  apply (f_equal length) in Hocc. rewrite length_take, !length_app in Hocc.
  destruct sep; [done|]. simpl in *. lia.
Qed.

Lemma genSplit_whole fuel s sep : ~ contains s sep -> genSplit fuel s sep = [s].
Proof.
  intros Hno. destruct fuel; [done|]. simpl.
  destruct (index_opt s sep) as [i|] eqn:Hi; [|done].
  destruct Hno. apply GoBytesFacts.index_opt_Some in Hi. by eexists _, _.
Qed.

(** Joining the pieces of a split with the separator gives the input back. *)
Lemma Join_genSplit fuel s sep : Join (genSplit fuel s sep) sep = s.
Proof.
  revert s. induction fuel as [|fuel IH]; intros s; simpl.
  - by rewrite app_nil_r.
  - destruct (index_opt s sep) as [i|] eqn:Hi; simpl; [|by rewrite app_nil_r].
    specialize (IH (drop (i + length sep) s)).
    destruct (genSplit fuel (drop (i + length sep) s) sep) as [|p ps] eqn:Hg.
    + destruct fuel; simpl in Hg; [done|]. by destruct (index_opt _ sep).
    + simpl in *. unfold fmap in IH. rewrite <-(assoc_L (++) sep), IH.
      by apply GoBytesFacts.index_opt_Some in Hi.
Qed.

Lemma Join_Split s sep : Join (Split s sep) sep = s.
Proof. apply Join_genSplit. Qed.

(** No piece of a split has the separator in it. *)
Lemma genSplit_pieces fuel s sep :
  sep <> [] -> (length s <= fuel)%nat ->
  Forall (fun p => ~ contains p sep) (genSplit fuel s sep).
Proof.
  intros Hsep. revert s. induction fuel as [|fuel IH]; intros s Hlen; simpl.
  - constructor; [|done]. destruct s; [|simpl in Hlen; lia].
    intros (pre & post & H). destruct pre, sep; done.
  - destruct (index_opt s sep) as [i|] eqn:Hi.
    + constructor; [by apply index_opt_minimal|]. apply IH.
      rewrite length_drop. destruct sep; [done|]. simpl in *. lia.
    + constructor; [|done]. by apply GoBytesFacts.index_opt_None.
Qed.

Lemma Split_pieces s sep :
  sep <> [] -> Forall (fun p => ~ contains p sep) (Split s sep).
Proof. intros Hsep. by apply genSplit_pieces. Qed.

Lemma occurrences_absent (c : byte) s : c ∉ s -> Rtsp.occurrences c s = O.
Proof.
  unfold Rtsp.occurrences. induction s as [|x s IH]; [done|].
  intros [Hx Hs]%not_elem_of_cons. rewrite filter_cons_False by done. by apply IH.
Qed.

Lemma occurrences_app (c : byte) s t :
  Rtsp.occurrences c (s ++ t) = (Rtsp.occurrences c s + Rtsp.occurrences c t)%nat.
Proof. unfold Rtsp.occurrences. by rewrite filter_app, length_app. Qed.

(** On a one-byte separator the number of pieces is the number of
    occurrences and one. *)
Lemma genSplit_count c fuel s :
  (length s <= fuel)%nat -> length (genSplit fuel s [c]) = S (Rtsp.occurrences c s).
Proof.
  revert s. induction fuel as [|fuel IH]; intros s Hlen.
  - destruct s; [done|simpl in Hlen; lia].
  - destruct (decide (c ∈ s)) as [Hin|Hout].
    + apply list_elem_of_split_l in Hin as (k & r & -> & Hk).
      rewrite SplitFacts.genSplit_first by done. simpl.
      rewrite length_app in Hlen. simpl in Hlen. rewrite IH by lia.
      rewrite occurrences_app, (occurrences_absent c k) by done.
      unfold Rtsp.occurrences. by rewrite filter_cons_True.
    + rewrite SplitFacts.genSplit_absent by done.
      by rewrite occurrences_absent.
Qed.

Lemma Split_count c s : length (Split s [c]) = S (Rtsp.occurrences c s).
Proof. by apply genSplit_count. Qed.

(** Three parts without the separator split into themselves. *)
Lemma Split_three c p0 p1 p2 :
  c ∉ p0 -> c ∉ p1 -> c ∉ p2 ->
  Split (p0 ++ c :: p1 ++ c :: p2) [c] = [p0; p1; p2].
Proof.
  intros H0 H1 H2. unfold Split. rewrite !length_app. simpl length.
  rewrite length_app. simpl length.
  replace (length p0 + S (length p1 + S (length p2)))%nat
    with (S (S (length p0 + length p1 + length p2))) by lia.
  rewrite SplitFacts.genSplit_first by done.
  rewrite SplitFacts.genSplit_first by done.
  by rewrite SplitFacts.genSplit_absent.
Qed.

End SearchFacts.

(** * More facts about the decoder *)

Module DecoderFacts.
Import Rtsp.

Lemma Index_bound s sep :
  GoBytes.Index s sep <> -1 ->
  0 <= GoBytes.Index s sep /\ GoBytes.Index s sep + Z.of_nat (length sep) <= Z.of_nat (length s).
Proof.
  unfold GoBytes.Index. destruct (GoBytes.index_opt s sep) as [i|] eqn:Hi; [|done].
  intros _. apply SearchFacts.index_opt_bound in Hi. lia.
Qed.

Lemma Index_app s t sep :
  GoBytes.Index s sep <> -1 -> GoBytes.Index (s ++ t) sep = GoBytes.Index s sep.
Proof.
  unfold GoBytes.Index. destruct (GoBytes.index_opt s sep) as [i|] eqn:Hi; [|done].
  intros _. by rewrite (SearchFacts.index_opt_app _ t _ _ Hi).
Qed.

(** A slice expression that stays inside the buffer reads the same bytes
    once more bytes follow the buffer. *)
Lemma slice_extended buf lo hi more spare' content :
  slice buf lo hi = Returned content -> hi <= len buf ->
  slice (extended buf more spare') lo hi = Returned content.
Proof.
  unfold slice, cap, len, extended. simpl. intros Hs Hhi.
  case_decide as Hb; [|done]. simplify_eq.
  rewrite decide_True by (rewrite length_app; lia). f_equal.
  rewrite <-!(assoc_L (++)).
  rewrite !drop_app_le by lia. rewrite !take_app_le by (rewrite length_drop; lia).
  done.
Qed.

Lemma Atoi_leading_blank v :
  GoStrconv.Atoi (" " +:+ v)%string =
  inl {| GoStrconv.Func := "Atoi"; GoStrconv.Num := (" " +:+ v)%string;
         GoStrconv.Err := GoStrconv.ErrSyntax |}.
Proof. done. Qed.

Section Decoder.
Variable unicodeToLower : string -> string.

Local Abbreviation parseLines := (Rtsp.parseLines unicodeToLower).
Local Abbreviation headerPair := (Rtsp.headerPair unicodeToLower).
Local Abbreviation contentLengthValues := (Rtsp.contentLengthValues unicodeToLower).
Local Abbreviation UnmarshalRequest := (Rtsp.UnmarshalRequest unicodeToLower).
Local Abbreviation ToLower := (Rtsp.ToLower unicodeToLower).

(** What a framed decode returns. *)
Lemma UnmarshalRequest_of_framed buf a lines :
  framed buf a lines ->
  UnmarshalRequest buf =
  let part (i : nat) :=
    string_of (default [] (GoBytes.Split (default [] (lines !! 0%nat)) (bytes_of " ") !! i)) in
  match parseLines lines ∅ 0 with
  | inl err => Returned (None, a + 4, Some (strconv_NumError err))
  | inr (hdr, contentLength) =>
      match slice buf (a + 4) (wrapInt (a + 4 + contentLength)) with
      | Panicked => Panicked
      | Returned content =>
          Returned (Some {| Method := ToLower (part 0%nat);
                            Url := ToLower (part 1%nat);
                            Version := ToLower (part 2%nat);
                            Lines := hdr;
                            Content := content |},
                    wrapInt (a + 4 + contentLength), None)
      end
  end.
Proof.
  intros (Ha & Hfound & Hlines & Hlen & Hparts).
  by apply RtspFacts.UnmarshalRequest_framed.
Qed.

(** The loop returns the error of the first [content-length] value when
    that value does not parse. *)
Lemma parseLines_first_fails lines hdr n v rest e :
  contentLengthValues lines = v :: rest -> GoStrconv.Atoi v = inl e ->
  parseLines lines hdr n = inl e.
Proof.
  revert hdr n. induction lines as [|line lines IH]; intros hdr n; [done|].
  rewrite RtspFacts.parseLines_cons, RtspFacts.contentLengthValues_cons.
  destruct (Rtsp.headerPair unicodeToLower line) as [[k w]|]; [|apply IH].
  case_decide; [|apply IH]. intros [= -> _] Hv. by rewrite Hv.
Qed.

(** A request that the decoder returns has the last pair of each key. *)
Lemma decoded_lookup buf a lines req n k :
  framed buf a lines ->
  UnmarshalRequest buf = Returned (Some req, n, None) ->
  Lines req !! k = snd <$> last (filter (fun kv => kv.1 = k) (omap headerPair lines)).
Proof.
  intros (Ha & Hfound & Hlines & Hlen & Hparts) Hreq.
  rewrite (RtspFacts.UnmarshalRequest_Lines unicodeToLower buf a lines req n) by done.
  rewrite RtspFacts.store_lookup_last, lookup_empty.
  by destruct (last _).
Qed.

(** ** Rejected messages *)

(** X1: a message whose header block is a single line, that is a request
    line with no header line behind it, is rejected: no request, the
    invalid-packet error, and the bytes up to the end of the terminator
    consumed. *)
Theorem header_block_of_one_line_is_invalid buf a :
  a = GoBytes.Index (data buf) CRLFCRLF -> a <> -1 ->
  ~ contains (take (Z.to_nat a) (data buf)) CRLF ->
  UnmarshalRequest buf = Returned (None, a + 4, Some (errors_New "invalid packet")).
Proof.
  intros -> Hfound Hone. unfold Rtsp.UnmarshalRequest.
  rewrite decide_False by done. unfold GoBytes.Split.
  rewrite SearchFacts.genSplit_whole by done. by rewrite decide_True by (simpl; lia).
Qed.

(** X2: a message whose first line does not have exactly two blanks, so
    that it does not split into three space-separated parts, is rejected
    with the invalid-packet error and the bytes up to the end of the
    terminator consumed. *)
Theorem request_line_needs_two_spaces buf a lines :
  a = GoBytes.Index (data buf) CRLFCRLF -> a <> -1 ->
  lines = GoBytes.Split (take (Z.to_nat a) (data buf)) CRLF ->
  Rtsp.occurrences " "%byte (default [] (lines !! 0%nat)) <> 2%nat ->
  UnmarshalRequest buf = Returned (None, a + 4, Some (errors_New "invalid packet")).
Proof.
  intros -> Hfound -> Hspaces. unfold Rtsp.UnmarshalRequest.
  rewrite decide_False by done. case_decide; [done|].
  change (bytes_of " ") with [" "%byte]. rewrite SearchFacts.Split_count.
  by rewrite decide_True by lia.
Qed.

(** ** Accepted messages *)

(** X3: when the first line is three parts without a blank, separated by
    single blanks, a returned request has the lower-cased first part as its
    method, the lower-cased second as its URL and the lower-cased third as
    its version. *)
Theorem request_line_tokens_are_lowercased buf a lines p0 p1 p2 req n :
  a = GoBytes.Index (data buf) CRLFCRLF -> a <> -1 ->
  lines = GoBytes.Split (take (Z.to_nat a) (data buf)) CRLF ->
  lines !! 0%nat = Some (p0 ++ " "%byte :: p1 ++ " "%byte :: p2) ->
  " "%byte ∉ p0 -> " "%byte ∉ p1 -> " "%byte ∉ p2 ->
  UnmarshalRequest buf = Returned (Some req, n, None) ->
  Method req = ToLower (string_of p0)
  /\ Url req = ToLower (string_of p1)
  /\ Version req = ToLower (string_of p2).
Proof.
  intros -> Hfound -> Hline H0 H1 H2. unfold Rtsp.UnmarshalRequest.
  rewrite decide_False by done. case_decide; [done|].
  rewrite Hline. simpl default. change (bytes_of " ") with [" "%byte].
  rewrite SearchFacts.Split_three by done. simpl.
  destruct (parseLines _ _ _) as [e|[hdr cl]]; [done|].
  destruct (slice _ _ _); [|done]. by intros [= <- _].
Qed.

(** X4: in a returned request a key maps to the value of the last line of
    the header block that yields the key, and is absent when no line yields
    it: the map holds nothing that no line gave, and of two lines with the
    same lower-cased name the later one wins. *)
Theorem header_map_has_last_pair_of_each_key buf a lines req n :
  framed buf a lines ->
  UnmarshalRequest buf = Returned (Some req, n, None) ->
  forall k,
    Lines req !! k = snd <$> last (filter (fun kv => kv.1 = k) (omap headerPair lines)).
Proof. intros Hf Hreq k. by eapply decoded_lookup. Qed.

(** X5: a framed message without any [content-length] line decodes to a
    request with an empty body and no [content-length] entry, and consumes
    the bytes up to the end of the terminator, whatever follows in the
    buffer; it does not panic. *)
Theorem no_content_length_means_empty_body buf a lines :
  framed buf a lines ->
  contentLengthValues lines = [] ->
  cap buf <= GoStrconv.maxInt ->
  exists req,
    UnmarshalRequest buf = Returned (Some req, a + 4, None)
    /\ Content req = []
    /\ Lines req !! "content-length"%string = None.
Proof.
  intros Hf Hnone Hmax. pose proof Hf as (Ha & Hfound & Hlines & Hlen & Hparts).
  rewrite (UnmarshalRequest_of_framed buf a lines) by done. cbv zeta.
  rewrite RtspFacts.parseLines_all_parse by (rewrite Hnone; constructor).
  rewrite Hnone. simpl last. cbv iota.
  destruct (Index_bound (data buf) CRLFCRLF) as [Hpos Hend]; [by subst a|].
  rewrite <-Ha in Hpos, Hend. simpl in Hend.
  assert (a + 4 <= cap buf) by (unfold cap; lia).
  assert (GoStrconv.minInt <= 0) by done.
  rewrite Z.add_0_r, wrapInt_id by lia.
  unfold slice. rewrite decide_True by lia. rewrite Z.sub_diag. simpl take.
  eexists. split; [done|]. split; [done|]. simpl.
  rewrite RtspFacts.store_lookup_last, lookup_empty.
  unfold Rtsp.contentLengthValues in Hnone. apply fmap_nil_inv in Hnone.
  by rewrite Hnone.
Qed.

(** X6: a result that consumed bytes inside the buffer, a request or an
    error other than the incomplete one, stays the same when more bytes
    arrive behind the buffer: the decoder reads no further than what it
    reports consumed. *)
Theorem decode_is_stable_under_more_bytes buf r n e more spare' :
  UnmarshalRequest buf = Returned (r, n, e) ->
  0 <= n <= len buf ->
  UnmarshalRequest (extended buf more spare') = Returned (r, n, e).
Proof.
  unfold Rtsp.UnmarshalRequest.
  change (data (extended buf more spare')) with (data buf ++ more).
  case_decide as Hfound; [intros [= _ <- _]; lia|].
  destruct (Index_bound (data buf) CRLFCRLF Hfound) as [Hpos Hend]. simpl in Hend.
  rewrite Index_app by done.
  rewrite (decide_False (P := GoBytes.Index (data buf) CRLFCRLF = -1)) by done.
  rewrite take_app_le by lia.
  case_decide; [done|]. case_decide; [done|].
  destruct (parseLines _ _ _) as [err|[hdr cl]]; [done|].
  destruct (slice buf _ _) as [content|] eqn:Hs; [|done].
  intros [= <- <- <-] Hn. by rewrite (slice_extended _ _ _ more spare' _ Hs) by lia.
Qed.

(** X7: whatever the decoder returns, it returns a request exactly when it
    returns no error; the count is [-1] exactly for the incomplete-packet
    error; any other count is at least 4 and at most the capacity, so a
    caller that skips the consumed bytes moves on; and for a request the
    count is the terminator's position, 4, and the body length. *)
Theorem decode_result_shape buf r n e :
  UnmarshalRequest buf = Returned (r, n, e) ->
  (is_Some r <-> e = None)
  /\ (n = -1 <-> e = Some (errors_New "incomplete packet"))
  /\ (n <> -1 -> 4 <= n <= cap buf)
  /\ (forall req, r = Some req ->
        n = GoBytes.Index (data buf) CRLFCRLF + 4 + Z.of_nat (length (Content req))).
Proof.
  unfold Rtsp.UnmarshalRequest.
  case_decide as Hfound.
  { intros [= <- <- <-]. split; [split; [by intros [? ?]|done]|]. done. }
  destruct (Index_bound (data buf) CRLFCRLF Hfound) as [Hpos Hend]. simpl in Hend.
  assert (GoBytes.Index (data buf) CRLFCRLF + 4 <= cap buf) by (unfold cap; lia).
  case_decide.
  { intros [= <- <- <-]. repeat split; try done; try lia; by intros [? ?]. }
  case_decide.
  { intros [= <- <- <-]. repeat split; try done; try lia; by intros [? ?]. }
  destruct (parseLines _ _ _) as [err|[hdr cl]].
  { intros [= <- <- <-]. repeat split; try done; try lia; by intros [? ?]. }
  destruct (slice buf _ _) as [content|] eqn:Hs; [|done].
  intros [= <- <- <-]. pose proof (RtspFacts.slice_length _ _ _ _ Hs) as Hl.
  unfold slice in Hs. case_decide as Hb; [|done].
  repeat split; try done; try lia.
  intros req [= <-]. simpl. lia.
Qed.

(** X8: a framed message whose first [content-length] line has a blank
    behind the colon is refused: the value keeps the blank, [Atoi] reports a
    syntax error for it, and that error is returned with the bytes up to the
    end of the terminator consumed. *)
Theorem content_length_with_leading_blank_fails buf a lines v rest :
  framed buf a lines ->
  contentLengthValues lines = (" " +:+ v)%string :: rest ->
  UnmarshalRequest buf =
  Returned (None, a + 4,
            Some (strconv_NumError {| GoStrconv.Func := "Atoi";
                                      GoStrconv.Num := (" " +:+ v)%string;
                                      GoStrconv.Err := GoStrconv.ErrSyntax |})).
Proof.
  intros Hf Hfirst. rewrite (UnmarshalRequest_of_framed buf a lines) by done. cbv zeta.
  by rewrite (parseLines_first_fails lines ∅ 0 _ _ _ Hfirst (Atoi_leading_blank v)).
Qed.

(** X9: when the last line of the header block that yields the key [cseq]
    has a blank behind its colon, [CSeq] of the returned request is [-1]. *)
Theorem cseq_with_leading_blank_is_minus_one buf a lines req n k v :
  framed buf a lines ->
  UnmarshalRequest buf = Returned (Some req, n, None) ->
  last (filter (fun kv => kv.1 = "cseq"%string) (omap headerPair lines))
    = Some (k, (" " +:+ v)%string) ->
  CSeq req = -1.
Proof.
  intros Hf Hreq Hlast.
  pose proof (decoded_lookup buf a lines req n "cseq" Hf Hreq) as Hk.
  rewrite Hlast in Hk. simpl in Hk.
  by apply (RtspFacts.CSeq_unparsed req _ _ Hk (Atoi_leading_blank v)).
Qed.


(** X20: on a framed message whose [content-length] values all parse, the
    last one being [n >= 0], and whose body is in the buffer, the decoder
    returns a request whose body is exactly the [n] bytes behind the
    terminator and consumes [a + 4 + n] bytes, so that what is left of the
    buffer starts at the next message. *)
Theorem body_is_the_announced_bytes buf a lines v n :
  framed buf a lines ->
  Forall parses (contentLengthValues lines) ->
  last (contentLengthValues lines) = Some v ->
  GoStrconv.Atoi v = inr n ->
  0 <= n -> a + 4 + n <= len buf -> cap buf <= GoStrconv.maxInt ->
  exists req,
    UnmarshalRequest buf = Returned (Some req, a + 4 + n, None)
    /\ Content req = take (Z.to_nat n) (drop (Z.to_nat (a + 4)) (data buf))
    /\ data buf = take (Z.to_nat a) (data buf) ++ CRLFCRLF ++ Content req
                   ++ drop (Z.to_nat (a + 4 + n)) (data buf).
Proof.
  intros Hf Hall Hlast Hv Hn Hlen Hmax.
  pose proof Hf as (Ha & Hfound & Hlines & Hlen2 & Hparts).
  rewrite (UnmarshalRequest_of_framed buf a lines) by done. cbv zeta.
  rewrite RtspFacts.parseLines_all_parse by done. rewrite Hlast, Hv.
  destruct (Index_bound (data buf) CRLFCRLF) as [Hpos Hend]; [by subst a|].
  rewrite <-Ha in Hpos, Hend. simpl in Hend.
  assert (len buf <= cap buf) by (unfold len, cap; lia).
  assert (GoStrconv.minInt <= 0) by done.
  rewrite wrapInt_id by lia.
  unfold slice. rewrite decide_True by lia.
  unfold len in Hlen.
  assert (take (Z.to_nat (a + 4 + n - (a + 4)))
               (drop (Z.to_nat (a + 4)) (data buf ++ spare buf))
          = take (Z.to_nat n) (drop (Z.to_nat (a + 4)) (data buf))) as ->.
  { replace (a + 4 + n - (a + 4)) with n by lia.
    rewrite drop_app_le by lia. by rewrite take_app_le by (rewrite length_drop; lia). }
  eexists. split; [done|]. split; [done|]. cbn [Content].
  assert (GoBytes.index_opt (data buf) CRLFCRLF = Some (Z.to_nat a)) as Hi.
  { subst a. unfold GoBytes.Index in *.
    destruct (GoBytes.index_opt (data buf) CRLFCRLF); [|done]. by rewrite Nat2Z.id. }
  apply GoBytesFacts.index_opt_Some in Hi. rewrite Hi at 1.
  f_equal. f_equal. simpl length.
  replace (Z.to_nat (a + 4)) with (Z.to_nat a + 4)%nat by lia.
  rewrite <-(take_drop (Z.to_nat n) (drop (Z.to_nat a + 4) (data buf))) at 1.
  f_equal. rewrite drop_drop. f_equal. lia.
Qed.

End Decoder.

End DecoderFacts.

(** * Facts about serialization and the header accessors *)

Module SerializeFacts.
Import Rtsp.

Lemma append_cons c s t : (String.String c s +:+ t = String.String c (s +:+ t))%string.
Proof. reflexivity. Qed.

Lemma append_assoc s1 s2 s3 : ((s1 +:+ s2) +:+ s3 = s1 +:+ (s2 +:+ s3))%string.
Proof. induction s1 as [|c s1 IH]; [done|]. by rewrite !append_cons, IH. Qed.

Lemma append_nil_r s : (s +:+ "" = s)%string.
Proof. induction s as [|c s IH]; [done|]. by rewrite append_cons, IH. Qed.

Lemma length_append s1 s2 :
  String.length (s1 +:+ s2) = (String.length s1 + String.length s2)%nat.
Proof.
  induction s1 as [|c s1 IH]; [done|]. rewrite append_cons. simpl. by rewrite IH.
Qed.

Lemma bytes_of_app s1 s2 : bytes_of (s1 +:+ s2) = bytes_of s1 ++ bytes_of s2.
Proof.
  induction s1 as [|c s1 IH]; [done|]. rewrite append_cons.
  unfold bytes_of in *. cbn. f_equal. apply IH.
Qed.

Lemma contains_refl s : contains s s.
Proof. exists [], []. by rewrite app_nil_r. Qed.

Lemma contains_behind p t sep : contains t sep -> contains (p ++ t) sep.
Proof. intros (pre & post & ->). exists (p ++ pre), post. by rewrite <-(assoc_L (++)). Qed.

Lemma contains_before t q sep : contains t sep -> contains (t ++ q) sep.
Proof.
  intros (pre & post & ->). exists pre, (post ++ q). by rewrite <-!(assoc_L (++)).
Qed.

Lemma String_in_acc acc order :
  foldl (fun s kv => s +:+ kv.1 +:+ ": " +:+ kv.2 +:+ crlf)%string acc order
  = (acc +:+ String_in order)%string.
Proof.
  unfold String_in. revert acc. induction order as [|[k v] order IH]; intros acc; simpl.
  - by rewrite append_nil_r.
  - rewrite (IH (acc +:+ _)%string), (IH ("" +:+ _)%string).
    rewrite append_assoc. reflexivity.
Qed.

Lemma String_in_cons k v order :
  String_in ((k, v) :: order) = (entryLine k v +:+ String_in order)%string.
Proof. unfold String_in at 1. simpl. by rewrite String_in_acc. Qed.

Lemma String_in_app l1 l2 :
  String_in (l1 ++ l2) = (String_in l1 +:+ String_in l2)%string.
Proof.
  induction l1 as [|[k v] l1 IH]; [done|].
  simpl. by rewrite !String_in_cons, IH, append_assoc.
Qed.

Lemma length_entryLine k v :
  String.length (entryLine k v) = (String.length k + String.length v + 4)%nat.
Proof. unfold entryLine. rewrite !length_append. simpl. lia. Qed.


Lemma entriesLength_cons kv entries :
  entriesLength (kv :: entries)
  = (String.length kv.1 + String.length kv.2 + 4 + entriesLength entries)%nat.
Proof. reflexivity. Qed.

Lemma length_String_in order : String.length (String_in order) = entriesLength order.
Proof.
  induction order as [|[k v] order IH]; [done|].
  by rewrite String_in_cons, length_append, length_entryLine, IH, entriesLength_cons.
Qed.

Lemma entriesLength_perm l1 l2 : l1 ≡ₚ l2 -> entriesLength l1 = entriesLength l2.
Proof.
  induction 1 as [|x l l' _ IH|x y l|l l' l'' _ IH1 _ IH2];
    rewrite ?entriesLength_cons; lia.
Qed.

(** X10: whatever the order in which the map is visited, the result of
    [HeaderLines.String] has the line [key: value CR LF] of every entry in
    it, and its length is the sum over the entries of the key length, the
    value length and 4. *)
Theorem serialization_has_every_entry lines s :
  String lines s ->
  (forall k v, lines !! k = Some v -> contains (bytes_of s) (bytes_of (entryLine k v)))
  /\ String.length s = entriesLength (map_to_list lines).
Proof.
  intros (order & Hperm & ->). split.
  - intros k v Hkv. apply elem_of_map_to_list in Hkv. rewrite <-Hperm in Hkv.
    apply list_elem_of_split in Hkv as (l1 & l2 & ->).
    rewrite String_in_app, String_in_cons, !bytes_of_app.
    by exists (bytes_of (String_in l1)), (bytes_of (String_in l2)).
  - rewrite length_String_in. by apply entriesLength_perm.
Qed.

(** X11: after [SetLine(k, v)], [GetLine(k)] is [v], [GetLine] of any other
    key is what it was, and every result of [ToString] has the line
    [k: v CR LF] in it. *)
Theorem SetLine_then_GetLine req k v :
  GetLine (SetLine req k v) k = v
  /\ (forall k', k' <> k -> GetLine (SetLine req k v) k' = GetLine req k')
  /\ (forall s, ToString (SetLine req k v) s ->
        contains (bytes_of s) (bytes_of (entryLine k v))).
Proof.
  unfold GetLine, at_key. cbn [SetLine Lines].
  split; [by rewrite lookup_insert_eq|].
  split; [intros k' Hk; by rewrite lookup_insert_ne|].
  intros s (headers & (order & Hperm & ->) & ->). cbn [SetLine Lines] in Hperm.
  assert ((k, v) ∈ order) as Hin.
  { rewrite Hperm. apply elem_of_map_to_list. by rewrite lookup_insert_eq. }
  apply list_elem_of_split in Hin as (l1 & l2 & ->).
  unfold ToString_with.
  do 6 (rewrite bytes_of_app; apply contains_behind).
  rewrite bytes_of_app. apply contains_before.
  rewrite String_in_app, String_in_cons, bytes_of_app. apply contains_behind.
  rewrite bytes_of_app. apply contains_before. apply contains_refl.
Qed.

(** X18: a request without headers whose request line has no CR LF in it
    serializes to a message the decoder rejects with the invalid-packet
    error: what [ToString] writes has a header block of one line. *)
Theorem serialization_without_headers_is_rejected unicodeToLower req s :
  Lines req = ∅ ->
  ~ contains (bytes_of (Method req +:+ " " +:+ Url req +:+ " " +:+ Version req)) CRLF ->
  ToString req s ->
  exists n,
    UnmarshalRequest unicodeToLower (exactly (bytes_of s))
    = Returned (None, n, Some (errors_New "invalid packet")).
Proof.
  intros Hempty Hline (headers & (order & Hperm & ->) & ->).
  rewrite Hempty, map_to_list_empty in Hperm. apply Permutation_nil_r in Hperm as ->.
  set (line := bytes_of (Method req +:+ " " +:+ Url req +:+ " " +:+ Version req)) in *.
  assert (bytes_of (ToString_with req (String_in []))
          = line ++ CRLFCRLF ++ Content req) as Hs.
  { unfold ToString_with, line. repeat rewrite bytes_of_app.
    rewrite ParameterFacts.bytes_of_string_of.
    change (bytes_of (String_in [])) with (@nil byte).
    change (bytes_of crlf) with CRLF.
    rewrite <-!(assoc_L (++)). done. }
  destruct (SearchFacts.index_opt_occurrence line CRLFCRLF (Content req))
    as (i & Hi & Hle).
  eexists. eapply DecoderFacts.header_block_of_one_line_is_invalid; [done| |].
  - simpl. rewrite Hs. unfold GoBytes.Index. rewrite Hi. lia.
  - simpl. rewrite Hs. unfold GoBytes.Index. rewrite Hi, Nat2Z.id.
    rewrite take_app_le by done. intros (pre & post & Hocc). apply Hline.
    exists pre, (post ++ drop i line).
    rewrite <-(take_drop i line) at 1. rewrite Hocc. by rewrite <-!(assoc_L (++)).
Qed.

End SerializeFacts.

(** * More facts about the parameter views *)

Module ViewFacts.
Import Rtsp.

Lemma bytes_of_strings (pieces : list bytes) :
  bytes_of <$> (string_of <$> pieces) = pieces.
Proof.
  induction pieces as [|p pieces IH]; [done|].
  rewrite !fmap_cons, IH. by rewrite ParameterFacts.bytes_of_string_of.
Qed.

(** X12: on a non-empty body [GetParameterRequest.Parameters] returns names
    that, joined with CR LF, are the body again, and none of which has
    CR LF in it. *)
Theorem GetParameter_names_rejoin_to_body req :
  Content req <> [] ->
  exists names,
    GetParameterRequest_Parameters req = Some names
    /\ GoBytes.Join (bytes_of <$> names) CRLF = Content req
    /\ Forall (fun name => ~ contains (bytes_of name) CRLF) names.
Proof.
  intros Hbody. unfold GetParameterRequest_Parameters.
  rewrite decide_False by (by destruct (Content req)).
  eexists. split; [done|]. unfold GoStrings.Split.
  rewrite ParameterFacts.bytes_of_string_of.
  change (bytes_of crlf) with CRLF. split.
  - rewrite bytes_of_strings. apply SearchFacts.Join_Split.
  - apply Forall_fmap. eapply Forall_impl; [by apply (SearchFacts.Split_pieces _ CRLF)|].
    intros p Hp. simpl. by rewrite ParameterFacts.bytes_of_string_of.
Qed.

(** X13: on a non-empty body [SetParameterRequest.Parameters] returns a map
    in which no key and no value has a colon or a CR LF in it. *)
Theorem SetParameter_entries_are_clean req :
  Content req <> [] ->
  exists params,
    SetParameterRequest_Parameters req = Some params
    /\ forall k v,
         params !! k = Some v ->
         (":"%byte ∉ bytes_of k) /\ (":"%byte ∉ bytes_of v)
         /\ ~ contains (bytes_of k) CRLF /\ ~ contains (bytes_of v) CRLF.
Proof.
  intros Hbody. unfold SetParameterRequest_Parameters.
  rewrite decide_False by (by destruct (Content req)).
  eexists. split; [done|]. intros k v Hkv.
  apply ParameterFacts.foldl_addParameter in Hkv as [Hlast|[Hnone _]];
    [|by rewrite lookup_empty in Hnone].
  destruct Hlast as (before & line & after & Hlines & (Hline & Hk & Hv) & _).
  assert (~ contains (bytes_of line) CRLF) as Hfree.
  { unfold GoStrings.Split in Hlines. change (bytes_of crlf) with CRLF in Hlines.
    pose proof (SearchFacts.Split_pieces (bytes_of (string_of (Content req))) CRLF) as Hp.
    assert (line ∈ string_of <$> GoBytes.Split (bytes_of (string_of (Content req))) CRLF)
      as Hin by (rewrite Hlines; set_solver).
    apply list_elem_of_fmap in Hin as (p & -> & Hin).
    rewrite ParameterFacts.bytes_of_string_of.
    by apply (proj1 (Forall_forall _ _) (Hp ltac:(done))). }
  split; [done|]. split; [done|]. rewrite Hline in Hfree. split.
  - intros (pre & post & Hocc). apply Hfree.
    exists pre, (post ++ ":"%byte :: bytes_of v). rewrite Hocc.
    by rewrite <-!(assoc_L (++)).
  - intros (pre & post & Hocc). apply Hfree.
    exists (bytes_of k ++ ":"%byte :: pre), post. rewrite Hocc.
    by rewrite <-!(assoc_L (++)).
Qed.

End ViewFacts.

(** * More facts about the connection context *)

Module ContextFacts.
Import Tcp.


(** X15: [LocalAddr] panics exactly on a handle that has a remote address
    and no local address; on a handle without a remote address it returns
    the empty string, a local address or not. *)
Theorem LocalAddr_panics_iff ctx :
  (LocalAddr ctx = Panicked <->
   exists conn, ctx_Conn ctx = Some conn
                /\ is_Some (Conn_RemoteAddr conn) /\ Conn_LocalAddr conn = None)
  /\ (forall conn, ctx_Conn ctx = Some conn -> Conn_RemoteAddr conn = None ->
        LocalAddr ctx = Returned ""%string).
Proof.
  unfold LocalAddr. split.
  - destruct (ctx_Conn ctx) as [conn|].
    + destruct (Conn_RemoteAddr conn) as [r|] eqn:Hr.
      * destruct (Conn_LocalAddr conn) as [l|] eqn:Hl.
        -- split; [done|]. intros (conn' & [= <-] & _ & Hl'). congruence.
        -- split; [|done]. intros _. exists conn. by rewrite Hr.
      * split; [done|]. intros (conn' & [= <-] & [r Hr'] & _). congruence.
    + split; [done|]. by intros (conn & ? & _).
  - intros conn -> Hr. by rewrite Hr.
Qed.

(** X16: [Network] panics exactly on a handle without a remote address; on
    a handle with one it returns the network of that address. *)
Theorem Network_panics_iff ctx :
  (Network ctx = Panicked <->
   exists conn, ctx_Conn ctx = Some conn /\ Conn_RemoteAddr conn = None)
  /\ (forall conn a, ctx_Conn ctx = Some conn -> Conn_RemoteAddr conn = Some a ->
        Network ctx = Returned (Addr_Network a)).
Proof.
  unfold Network. split.
  - destruct (ctx_Conn ctx) as [conn|].
    + destruct (Conn_RemoteAddr conn) as [r|] eqn:Hr.
      * split; [done|]. intros (conn' & [= <-] & Hr'). congruence.
      * split; [|done]. intros _. by exists conn.
    + split; [done|]. by intros (conn & ? & _).
  - intros conn a -> Hr. by rewrite Hr.
Qed.

(** X17: [SetConn] with a connection attaches it, whatever was attached
    before, and [Write] then returns what the connection's [AsyncWrite]
    returns; [SetConn(nil)] after it detaches, so that [Write] panics and
    the three address queries return the empty string; [SetConn] with a
    value that is no connection panics. *)
Theorem SetConn_decides_Write ctx conn data :
  (exists ctx', SetConn ctx (Some (AnyConn conn)) = Returned ctx'
                /\ Write ctx' data = Returned (Conn_AsyncWrite conn data)
                /\ exists ctx'', SetConn ctx' None = Returned ctx''
                                 /\ Write ctx'' data = Panicked
                                 /\ RemoteAddr ctx'' = Returned ""%string
                                 /\ LocalAddr ctx'' = Returned ""%string
                                 /\ Network ctx'' = Returned ""%string)
  /\ SetConn ctx (Some AnyOther) = Panicked.
Proof. split; [|done]. eexists. do 2 (split; [done|]). by eexists. Qed.

End ContextFacts.

(** * The further properties on the sample messages *)

Module OnMoreSamples.
Import Rtsp Samples.

(** A closed fact that evaluation decides. *)
Ltac evaluated := vm_compute; first [reflexivity | discriminate | lia | done].

(** [framed] on a sample, by evaluation of its five parts. *)
Ltac framed_evaluated := repeat split; evaluated.

(** A byte that is not among the bytes of a sample. *)
Ltac absent :=
  vm_compute;
  let H := fresh "H" in
  intros H;
  repeat (apply elem_of_cons in H as [H|H]; [discriminate H|]);
  by apply elem_of_nil in H.

Lemma headerless_is_invalid :
  UnmarshalRequest asciiToLower (exactly (bytes_of headerless))
  = Returned (None, 18 + 4, Some (errors_New "invalid packet")).
Proof.
  apply (DecoderFacts.header_block_of_one_line_is_invalid
           asciiToLower (exactly (bytes_of headerless)) 18).
  - evaluated.
  - lia.
  - apply GoBytesFacts.Index_minus_one. evaluated.
Defined.

Lemma fourTokens_is_invalid :
  UnmarshalRequest asciiToLower (exactly (bytes_of fourTokens))
  = Returned (None, 32 + 4, Some (errors_New "invalid packet")).
Proof.
  apply (DecoderFacts.request_line_needs_two_spaces
           asciiToLower (exactly (bytes_of fourTokens)) 32
           (GoBytes.Split (take (Z.to_nat 32) (bytes_of fourTokens)) CRLF)).
  - evaluated.
  - lia.
  - reflexivity.
  - evaluated.
Defined.

Lemma framed_optionsRequest :
  framed (exactly (bytes_of optionsRequest)) 26
         (GoBytes.Split (take (Z.to_nat 26) (bytes_of optionsRequest)) CRLF).
Proof. framed_evaluated. Defined.

Lemma framed_setupRequest :
  framed (exactly (bytes_of setupRequest)) 71
         (GoBytes.Split (take (Z.to_nat 71) (bytes_of setupRequest)) CRLF).
Proof. framed_evaluated. Defined.

Lemma optionsRequest_tokens :
  Method optionsDecoded = ToLower asciiToLower (string_of (bytes_of "OPTIONS"))
  /\ Url optionsDecoded = ToLower asciiToLower (string_of (bytes_of "*"))
  /\ Version optionsDecoded = ToLower asciiToLower (string_of (bytes_of "RTSP/1.0")).
Proof.
  apply (DecoderFacts.request_line_tokens_are_lowercased
           asciiToLower (exactly (bytes_of optionsRequest)) 26
           (GoBytes.Split (take (Z.to_nat 26) (bytes_of optionsRequest)) CRLF)
           (bytes_of "OPTIONS") (bytes_of "*") (bytes_of "RTSP/1.0") optionsDecoded 30).
  - evaluated.
  - lia.
  - reflexivity.
  - evaluated.
  - absent.
  - absent.
  - absent.
  - apply RtspFacts.optionsRequest_decoded.
Defined.

Lemma optionsRequest_cseq_entry :
  Lines optionsDecoded !! "cseq"%string
  = snd <$> last (filter (fun kv => kv.1 = "cseq"%string)
                    (omap (headerPair asciiToLower)
                       (GoBytes.Split (take (Z.to_nat 26) (bytes_of optionsRequest)) CRLF))).
Proof.
  apply (DecoderFacts.header_map_has_last_pair_of_each_key
           asciiToLower (exactly (bytes_of optionsRequest)) 26 _ optionsDecoded 30
           framed_optionsRequest (RtspFacts.optionsRequest_decoded asciiToLower)).
Defined.

Lemma optionsRequest_has_no_body :
  exists req,
    UnmarshalRequest asciiToLower (exactly (bytes_of optionsRequest))
    = Returned (Some req, 26 + 4, None)
    /\ Content req = []
    /\ Lines req !! "content-length"%string = None.
Proof.
  apply (DecoderFacts.no_content_length_means_empty_body
           asciiToLower (exactly (bytes_of optionsRequest)) 26 _ framed_optionsRequest).
  - evaluated.
  - evaluated.
Defined.

Lemma optionsRequest_before_setupRequest :
  UnmarshalRequest asciiToLower
    (extended (exactly (bytes_of optionsRequest)) (bytes_of setupRequest) [])
  = Returned (Some optionsDecoded, 30, None).
Proof.
  apply (DecoderFacts.decode_is_stable_under_more_bytes
           asciiToLower (exactly (bytes_of optionsRequest))).
  - apply RtspFacts.optionsRequest_decoded.
  - split; evaluated.
Defined.

Lemma setupRequest_result_shape :
  (is_Some (Some setupDecoded) <-> @None error = None)
  /\ (75 = -1 <-> @None error = Some (errors_New "incomplete packet"))
  /\ (75 <> -1 -> 4 <= 75 <= cap (exactly (bytes_of setupRequest)))
  /\ (forall req, Some setupDecoded = Some req ->
        75 = GoBytes.Index (data (exactly (bytes_of setupRequest))) CRLFCRLF + 4
             + Z.of_nat (length (Content req))).
Proof.
  apply (DecoderFacts.decode_result_shape
           asciiToLower (exactly (bytes_of setupRequest)) (Some setupDecoded) 75 None).
  apply RtspFacts.setupRequest_decoded.
Defined.

Lemma blankLength_is_refused :
  UnmarshalRequest asciiToLower (exactly (bytes_of blankLength))
  = Returned (None, 61 + 4,
              Some (strconv_NumError {| GoStrconv.Func := "Atoi";
                                        GoStrconv.Num := (" " +:+ "3")%string;
                                        GoStrconv.Err := GoStrconv.ErrSyntax |})).
Proof.
  apply (DecoderFacts.content_length_with_leading_blank_fails
           asciiToLower (exactly (bytes_of blankLength)) 61
           (GoBytes.Split (take (Z.to_nat 61) (bytes_of blankLength)) CRLF) "3" []).
  - framed_evaluated.
  - evaluated.
Defined.

Lemma setupRequest_cseq :
  CSeq setupDecoded = -1.
Proof.
  apply (DecoderFacts.cseq_with_leading_blank_is_minus_one
           asciiToLower (exactly (bytes_of setupRequest)) 71 _ setupDecoded 75
           "cseq" "3" framed_setupRequest).
  - apply RtspFacts.setupRequest_decoded.
  - evaluated.
Defined.


Lemma twoGoodLengths_body :
  exists req,
    UnmarshalRequest asciiToLower (exactly (bytes_of twoGoodLengths))
    = Returned (Some req, 78 + 4 + 3, None)
    /\ Content req = take (Z.to_nat 3) (drop (Z.to_nat (78 + 4)) (bytes_of twoGoodLengths))
    /\ bytes_of twoGoodLengths
       = take (Z.to_nat 78) (bytes_of twoGoodLengths) ++ CRLFCRLF ++ Content req
         ++ drop (Z.to_nat (78 + 4 + 3)) (bytes_of twoGoodLengths).
Proof.
  apply (DecoderFacts.body_is_the_announced_bytes
           asciiToLower (exactly (bytes_of twoGoodLengths)) 78
           (GoBytes.Split (take (Z.to_nat 78) (bytes_of twoGoodLengths)) CRLF) "3" 3).
  - framed_evaluated.
  - replace (contentLengthValues asciiToLower _) with ["7"; "3"]%string by evaluated.
    repeat constructor.
    + apply (OnSamples.parses_digits "7" 7). evaluated.
    + apply (OnSamples.parses_digits "3" 3). evaluated.
  - evaluated.
  - evaluated.
  - lia.
  - evaluated.
  - evaluated.
Defined.

Lemma optionsDecoded_String :
  String (Lines optionsDecoded) (entryLine "cseq" "1").
Proof. exists [("cseq", "1")%string]. split; evaluated. Defined.

Lemma optionsDecoded_serialized_length :
  String.length (entryLine "cseq" "1") = entriesLength (map_to_list (Lines optionsDecoded)).
Proof.
  apply (SerializeFacts.serialization_has_every_entry
           (Lines optionsDecoded) (entryLine "cseq" "1") optionsDecoded_String).
Defined.

Lemma headerlessDecoded_ToString :
  ToString headerlessDecoded (ToString_with headerlessDecoded "").
Proof. exists ""%string. split; [|done]. exists []. split; evaluated. Defined.

Lemma headerlessDecoded_is_rejected :
  exists n,
    UnmarshalRequest asciiToLower
      (exactly (bytes_of (ToString_with headerlessDecoded "")))
    = Returned (None, n, Some (errors_New "invalid packet")).
Proof.
  apply (SerializeFacts.serialization_without_headers_is_rejected
           asciiToLower headerlessDecoded).
  - reflexivity.
  - apply GoBytesFacts.Index_minus_one. evaluated.
  - apply headerlessDecoded_ToString.
Defined.

Lemma twoNames_rejoin :
  exists names,
    GetParameterRequest_Parameters (withBody twoNames) = Some names
    /\ GoBytes.Join (bytes_of <$> names) CRLF = Content (withBody twoNames)
    /\ Forall (fun name => ~ contains (bytes_of name) CRLF) names.
Proof.
  apply (ViewFacts.GetParameter_names_rejoin_to_body (withBody twoNames)).
  discriminate.
Defined.

Lemma threeLines_entries_are_clean :
  exists params,
    SetParameterRequest_Parameters (withBody threeLines) = Some params
    /\ forall k v,
         params !! k = Some v ->
         (":"%byte ∉ bytes_of k) /\ (":"%byte ∉ bytes_of v)
         /\ ~ contains (bytes_of k) CRLF /\ ~ contains (bytes_of v) CRLF.
Proof.
  apply (ViewFacts.SetParameter_entries_are_clean (withBody threeLines)).
  discriminate.
Defined.

End OnMoreSamples.
